(** * echo-keycloak: the authentication gate and the role gate

    A shallow embedding of [keycloak.go] and [keycloak_roles.go].  Go strings
    are byte sequences and become [string]; the request context, which echo
    exposes as an interface, becomes a record of its read methods plus the
    key-value store that [Get] and [Set] work on; a Go panic is a result of
    its own, distinct from a returned error. *)

From Stdlib Require Import ZArith Ascii String.
From stdpp Require Import gmap strings list fin_maps.

Local Open Scope string_scope.
Local Open Scope Z_scope.

(** ** Panics *)

(** A Go call either returns or panics.  Returned [error] values are ordinary
    data and live inside [Ok]. *)
Inductive result (A : Type) : Type :=
| Ok (a : A)
| Panic (msg : string).
Arguments Ok {A} a.
Arguments Panic {A} msg.

#[global] Instance result_ret : MRet result := fun _ a => Ok a.
#[global] Instance result_bind : MBind result := fun _ _ k r =>
  match r with
  | Ok a => k a
  | Panic msg => Panic msg
  end.

Definition panics {A} (r : result A) : Prop :=
  match r with Panic _ => True | Ok _ => False end.

(** [xs[i]]: indexing a slice panics when [i] is out of range. *)
Definition index {A} (xs : list A) (i : nat) : result A :=
  match xs !! i with
  | Some x => Ok x
  | None => Panic "runtime error: index out of range"
  end.

(** ** The pieces of Go's [strings] package the middleware calls *)

Module strings.

(** [strings.ToLower] on ASCII bytes: [A]..[Z] move down by 32, every other
    byte stays.  (Go also lowers letters outside ASCII; the theorems below
    use [ToLower] only through equations between its results.) *)
Definition lower_byte (a : ascii) : ascii :=
  let n := N_of_ascii a in
  if ((65 <=? n) && (n <=? 90))%N then ascii_of_N (n + 32) else a.

Fixpoint ToLower (s : string) : string :=
  match s with
  | EmptyString => EmptyString
  | String a s' => String (lower_byte a) (ToLower s')
  end.

(** [strings.Split(s, sep)] for a one-byte separator: the pieces between
    the occurrences of [sep], always at least one piece. *)
Fixpoint Split (s : string) (sep : ascii) : list string :=
  match s with
  | EmptyString => [EmptyString]
  | String a s' =>
      if Ascii.eqb a sep then EmptyString :: Split s' sep
      else match Split s' sep with
           | p :: ps => String a p :: ps
           | [] => [String a EmptyString]
           end
  end.

End strings.

(** [len(s)] of a Go string, as the integer Go computes with. *)
Definition len (s : string) : Z := Z.of_nat (String.length s).

(** [s[:hi]] and [s[lo:]].  Both panic out of range in Go; every use below
    sits behind the source's own length test, which keeps them in range. *)
Definition slice_to (s : string) (hi : Z) : string :=
  String.substring 0 (Z.to_nat hi) s.
Definition slice_from (s : string) (lo : Z) : string :=
  String.substring (Z.to_nat lo) (String.length s - Z.to_nat lo) s.

(** ** Status codes, errors *)

Module http.
Definition StatusBadRequest : Z := 400.
Definition StatusUnauthorized : Z := 401.
Definition StatusForbidden : Z := 403.
Definition StatusInternalServerError : Z := 500.
End http.

(** Go's [error] interface, with the two kinds of implementers the gates
    meet: echo's [*HTTPError] and whatever the identity-provider client
    returns.  A nil error is [None : option error]. *)
#[local] Unset Elimination Schemes.
Inductive error : Type :=
| HTTPError (Code : Z) (Message : string) (Internal : option error)
| ClientError (msg : string).
#[local] Set Elimination Schemes.

Definition NewHTTPError (code : Z) (message : string) : error :=
  HTTPError code message None.

(** The status an error carries when it is an [HTTPError]. *)
Definition Code (e : error) : option Z :=
  match e with
  | HTTPError code _ _ => Some code
  | ClientError _ => None
  end.

Definition Internal (e : error) : option error :=
  match e with
  | HTTPError _ _ internal => internal
  | ClientError _ => None
  end.

(** ** Claims and tokens *)

(** A value of Go's [interface{}] as it occurs inside decoded claims. *)
#[local] Unset Elimination Schemes.
Inductive JSON : Type :=
| JNull
| JBool (b : bool)
| JNumber (n : Z)
| JString (s : string)
| JArray (l : list JSON)
| JObject (m : gmap string JSON).
#[local] Set Elimination Schemes.

Module jwt.

(** The dynamic type behind a [jwt.Claims] interface value: the generic
    [jwt.MapClaims] or some caller-supplied claims type. *)
Inductive Claims : Type :=
| MapClaims (m : gmap string JSON)
| CustomClaims (shape : string) (fields : JSON).

Record Token : Type := {
  Valid : bool;
  TokenClaims : option Claims   (* the field [Claims]; nil is [None] *)
}.

End jwt.

(** ** The request context *)

(** What a gate or a handler can keep in the context store.  [VToken None]
    is a nil [*jwt.Token]. *)
Inductive Value : Type :=
| VToken (t : option jwt.Token)
| VStrings (l : list string)
| VOther (j : JSON).

(** [echo.Context], by the methods the middleware calls on it. *)
Record Context : Type := {
  HeaderGet : string → string;        (* c.Request().Header.Get(name) *)
  QueryParam : string → string;
  Param : string → string;
  Cookie : string → option string;    (* the cookie's Value; None when err != nil *)
  store : gmap string Value
}.

(** [c.Get(key)]; an absent key reads as nil. *)
Definition c_Get (c : Context) (key : string) : option Value :=
  store c !! key.

(** [c.Set(key, val)]. *)
Definition c_Set (c : Context) (key : string) (val : Value) : Context :=
  {| HeaderGet := HeaderGet c; QueryParam := QueryParam c; Param := Param c;
     Cookie := Cookie c; store := <[key := val]> (store c) |}.

Definition HandlerFunc : Type := Context → result (Context * option error).
Definition MiddlewareFunc : Type := HandlerFunc → HandlerFunc.

(** [middleware.Skipper] and [middleware.BeforeFunc].  A skipper is taken as
    a predicate on the request; the hooks may change the context. *)
Definition Skipper_t : Type := Context → bool.
Definition BeforeFunc_t : Type := Context → Context.
Definition DefaultSkipper : Skipper_t := fun _ => false.

Definition KeycloakSuccessHandler : Type := Context → Context.
Definition KeycloakErrorHandler : Type := option error → option error.
Definition KeycloakErrorHandlerWithContext : Type :=
  option error → Context → Context * option error.
Definition tokenExtractor : Type := Context → string * option error.

(** Calling a func-typed field; a nil func value panics. *)
Definition call_Skipper (f : option Skipper_t) (c : Context) : result bool :=
  match f with
  | Some skip => Ok (skip c)
  | None => Panic "invalid memory address or nil pointer dereference"
  end.

(** [if f != nil { f(c) }] for the two hooks that only act on the context. *)
Definition run_hook (f : option (Context → Context)) (c : Context) : Context :=
  match f with
  | Some hook => hook c
  | None => c
  end.

(** ** keycloak.go: token extraction *)

Definition ErrTokenMissing : error :=
  NewHTTPError http.StatusBadRequest "missing or malformed token".

(** [tokenFromHeader]: extracts the token from the request header. *)
Definition tokenFromHeader (header authScheme : string) : tokenExtractor :=
  fun c =>
    let auth := HeaderGet c header in
    let l := len authScheme in
    if (l + 1 <? len auth)
       && String.eqb (strings.ToLower (slice_to auth l)) (strings.ToLower authScheme)
    then (slice_from auth (l + 1), None)
    else ("", Some ErrTokenMissing).

(** [tokenFromQuery]: extracts the token from the query string. *)
Definition tokenFromQuery (param : string) : tokenExtractor :=
  fun c =>
    let token := QueryParam c param in
    if String.eqb token "" then ("", Some ErrTokenMissing) else (token, None).

(** [tokenFromParam]: extracts the token from the url param string. *)
Definition tokenFromParam (param : string) : tokenExtractor :=
  fun c =>
    let token := Param c param in
    if String.eqb token "" then ("", Some ErrTokenMissing) else (token, None).

(** [tokenFromCookie]: extracts the token from the named cookie. *)
Definition tokenFromCookie (name : string) : tokenExtractor :=
  fun c =>
    match Cookie c name with
    | None => ("", Some ErrTokenMissing)
    | Some value => (value, None)
    end.

(** ** keycloak.go: the authentication gate *)

(** The identity-provider client, [gocloak.GoCloak], by the two decode
    methods the gate names.  A returned [*jwt.Token] may be nil. *)
Record GoCloak : Type := {
  DecodeAccessToken :
    string → string → option jwt.Token * option jwt.Claims * option error;
  DecodeAccessTokenCustomClaims :
    string → string → jwt.Claims → option jwt.Token * option error
}.

Module KC.

Record KeycloakConfig : Type := {
  Skipper : option Skipper_t;
  BeforeFunc : option BeforeFunc_t;
  SuccessHandler : option KeycloakSuccessHandler;
  ErrorHandler : option KeycloakErrorHandler;
  ErrorHandlerWithContext : option KeycloakErrorHandlerWithContext;
  KeycloakURL : string;
  KeycloakRealm : string;
  ContextKey : string;
  Claims : option jwt.Claims;
  TokenLookup : string;
  AuthScheme : string
}.

Definition set_Skipper (config : KeycloakConfig) (v : option Skipper_t) :=
  {| Skipper := v; BeforeFunc := BeforeFunc config;
     SuccessHandler := SuccessHandler config; ErrorHandler := ErrorHandler config;
     ErrorHandlerWithContext := ErrorHandlerWithContext config;
     KeycloakURL := KeycloakURL config; KeycloakRealm := KeycloakRealm config;
     ContextKey := ContextKey config; Claims := Claims config;
     TokenLookup := TokenLookup config; AuthScheme := AuthScheme config |}.

Definition set_KeycloakURL (config : KeycloakConfig) (v : string) :=
  {| Skipper := Skipper config; BeforeFunc := BeforeFunc config;
     SuccessHandler := SuccessHandler config; ErrorHandler := ErrorHandler config;
     ErrorHandlerWithContext := ErrorHandlerWithContext config;
     KeycloakURL := v; KeycloakRealm := KeycloakRealm config;
     ContextKey := ContextKey config; Claims := Claims config;
     TokenLookup := TokenLookup config; AuthScheme := AuthScheme config |}.

Definition set_KeycloakRealm (config : KeycloakConfig) (v : string) :=
  {| Skipper := Skipper config; BeforeFunc := BeforeFunc config;
     SuccessHandler := SuccessHandler config; ErrorHandler := ErrorHandler config;
     ErrorHandlerWithContext := ErrorHandlerWithContext config;
     KeycloakURL := KeycloakURL config; KeycloakRealm := v;
     ContextKey := ContextKey config; Claims := Claims config;
     TokenLookup := TokenLookup config; AuthScheme := AuthScheme config |}.

Definition set_ContextKey (config : KeycloakConfig) (v : string) :=
  {| Skipper := Skipper config; BeforeFunc := BeforeFunc config;
     SuccessHandler := SuccessHandler config; ErrorHandler := ErrorHandler config;
     ErrorHandlerWithContext := ErrorHandlerWithContext config;
     KeycloakURL := KeycloakURL config; KeycloakRealm := KeycloakRealm config;
     ContextKey := v; Claims := Claims config;
     TokenLookup := TokenLookup config; AuthScheme := AuthScheme config |}.

Definition set_Claims (config : KeycloakConfig) (v : option jwt.Claims) :=
  {| Skipper := Skipper config; BeforeFunc := BeforeFunc config;
     SuccessHandler := SuccessHandler config; ErrorHandler := ErrorHandler config;
     ErrorHandlerWithContext := ErrorHandlerWithContext config;
     KeycloakURL := KeycloakURL config; KeycloakRealm := KeycloakRealm config;
     ContextKey := ContextKey config; Claims := v;
     TokenLookup := TokenLookup config; AuthScheme := AuthScheme config |}.

Definition set_TokenLookup (config : KeycloakConfig) (v : string) :=
  {| Skipper := Skipper config; BeforeFunc := BeforeFunc config;
     SuccessHandler := SuccessHandler config; ErrorHandler := ErrorHandler config;
     ErrorHandlerWithContext := ErrorHandlerWithContext config;
     KeycloakURL := KeycloakURL config; KeycloakRealm := KeycloakRealm config;
     ContextKey := ContextKey config; Claims := Claims config;
     TokenLookup := v; AuthScheme := AuthScheme config |}.

Definition set_AuthScheme (config : KeycloakConfig) (v : string) :=
  {| Skipper := Skipper config; BeforeFunc := BeforeFunc config;
     SuccessHandler := SuccessHandler config; ErrorHandler := ErrorHandler config;
     ErrorHandlerWithContext := ErrorHandlerWithContext config;
     KeycloakURL := KeycloakURL config; KeycloakRealm := KeycloakRealm config;
     ContextKey := ContextKey config; Claims := Claims config;
     TokenLookup := TokenLookup config; AuthScheme := v |}.

End KC.

Definition HeaderAuthorization : string := "Authorization".

(** [DefaultKeycloakConfig]: the default auth middleware config. *)
Definition DefaultKeycloakConfig : KC.KeycloakConfig :=
  {| KC.Skipper := Some DefaultSkipper;
     KC.BeforeFunc := None;
     KC.SuccessHandler := None;
     KC.ErrorHandler := None;
     KC.ErrorHandlerWithContext := None;
     KC.KeycloakURL := "";
     KC.KeycloakRealm := "";
     KC.ContextKey := "user";
     KC.Claims := Some (jwt.MapClaims ∅);
     KC.TokenLookup := "header:" +:+ HeaderAuthorization;
     KC.AuthScheme := "Bearer" |}.

(** Lines 109-126 of [KeycloakWithConfig]: the zero-valued fields take the
    default's value; an empty identity-provider URL is fatal. *)
Definition keycloakDefaults (config : KC.KeycloakConfig) : result KC.KeycloakConfig :=
  let config :=
    match KC.Skipper config with
    | None => KC.set_Skipper config (KC.Skipper DefaultKeycloakConfig)
    | Some _ => config
    end in
  if String.eqb (KC.KeycloakURL config) ""
  then Panic "echo: keycloak middleware requires keycloak url"
  else
    let config :=
      if String.eqb (KC.ContextKey config) ""
      then KC.set_ContextKey config (KC.ContextKey DefaultKeycloakConfig)
      else config in
    let config :=
      match KC.Claims config with
      | None => KC.set_Claims config (KC.Claims DefaultKeycloakConfig)
      | Some _ => config
      end in
    let config :=
      if String.eqb (KC.TokenLookup config) ""
      then KC.set_TokenLookup config (KC.TokenLookup DefaultKeycloakConfig)
      else config in
    let config :=
      if String.eqb (KC.AuthScheme config) ""
      then KC.set_AuthScheme config (KC.AuthScheme DefaultKeycloakConfig)
      else config in
    Ok config.

(** Lines 130-139: the extractor the lookup string selects.  [parts[1]] is
    read before the switch, so a lookup string without a colon panics. *)
Definition keycloakExtractor (config : KC.KeycloakConfig) : result tokenExtractor :=
  let parts := strings.Split (KC.TokenLookup config) ":" in
  parts1 ← index parts 1;
  let extractor := tokenFromHeader parts1 (KC.AuthScheme config) in
  parts0 ← index parts 0;
  if String.eqb parts0 "query" then Ok (tokenFromQuery parts1)
  else if String.eqb parts0 "param" then Ok (tokenFromParam parts1)
  else if String.eqb parts0 "cookie" then Ok (tokenFromCookie parts1)
  else Ok extractor.

(** Lines 175-186 and 153-160: the error hooks in their order, then the
    fallback [dflt]. *)
Definition keycloakFail (errorHandler : option KeycloakErrorHandler)
    (errorHandlerWithContext : option KeycloakErrorHandlerWithContext)
    (dflt : option error) (err : option error) (c : Context)
  : Context * option error :=
  match errorHandler with
  | Some handler => (c, handler err)
  | None =>
      match errorHandlerWithContext with
      | Some handler => handler err c
      | None => (c, dflt)
      end
  end.

(** Lines 162-167: the decode call.  The test [config.Claims.(jwt.Claims)]
    asserts an interface value to its own interface type, so it holds
    exactly when [config.Claims] is not nil.  (The else branch also assigns
    [config.Claims], which only a later request could observe.) *)
Definition keycloakDecode (client : GoCloak) (config : KC.KeycloakConfig)
    (auth : string) : option jwt.Token * option error :=
  match KC.Claims config with
  | Some claims =>
      DecodeAccessTokenCustomClaims client auth (KC.KeycloakRealm config) claims
  | None =>
      let '(token, _, err) := DecodeAccessToken client auth (KC.KeycloakRealm config) in
      (token, err)
  end.

(** [err == nil && token.Valid]; reading [Valid] through a nil token
    panics, and is not reached when [err] is set. *)
Definition tokenAccepted (token : option jwt.Token) (err : option error) : result bool :=
  match err with
  | Some _ => Ok false
  | None =>
      match token with
      | Some t => Ok (jwt.Valid t)
      | None => Panic "invalid memory address or nil pointer dereference"
      end
  end.

(** Lines 141-187: the handler the middleware wraps around [next]. *)
Definition keycloakHandler (client : GoCloak) (config : KC.KeycloakConfig)
    (extractor : tokenExtractor) (next : HandlerFunc) : HandlerFunc :=
  fun c =>
    skip ← call_Skipper (KC.Skipper config) c;
    if skip : bool then next c
    else
      let c := run_hook (KC.BeforeFunc config) c in
      let '(auth, err) := extractor c in
      match err with
      | Some _ =>
          Ok (keycloakFail (KC.ErrorHandler config) (KC.ErrorHandlerWithContext config)
                err err c)
      | None =>
          let '(token, err) := keycloakDecode client config auth in
          accepted ← tokenAccepted token err;
          if accepted : bool then
            let c := c_Set c (KC.ContextKey config) (VToken token) in
            let c := run_hook (KC.SuccessHandler config) c in
            next c
          else
            Ok (keycloakFail (KC.ErrorHandler config) (KC.ErrorHandlerWithContext config)
                  (Some (HTTPError http.StatusUnauthorized "invalid or expired token" err))
                  err c)
      end.

Section Keycloak.

(** [gocloak.NewClient]: the client for an identity-provider URL. *)
Variable NewClient : string → GoCloak.

(** [KeycloakWithConfig]: the auth middleware for a config. *)
Definition KeycloakWithConfig (config : KC.KeycloakConfig) : result MiddlewareFunc :=
  config ← keycloakDefaults config;
  let gocloakClient := NewClient (KC.KeycloakURL config) in
  extractor ← keycloakExtractor config;
  Ok (keycloakHandler gocloakClient config extractor).

(** [Keycloak]: the auth middleware with the default config. *)
Definition Keycloak (url realm : string) : result MiddlewareFunc :=
  let c := DefaultKeycloakConfig in
  let c := KC.set_KeycloakURL c url in
  let c := KC.set_KeycloakRealm c realm in
  KeycloakWithConfig c.

End Keycloak.

(** ** keycloak_roles.go: the role gate *)

Module funk.

(** [funk.ContainsString(s, v)]: is [v] one of the strings of [s]. *)
Fixpoint ContainsString (s : list string) (v : string) : bool :=
  match s with
  | [] => false
  | item :: rest => if String.eqb item v then true else ContainsString rest v
  end.

End funk.

Module KRC.

Record KeycloakRolesConfig : Type := {
  Skipper : option Skipper_t;
  BeforeFunc : option BeforeFunc_t;
  SuccessHandler : option KeycloakSuccessHandler;
  ErrorHandler : option KeycloakErrorHandler;
  ErrorHandlerWithContext : option KeycloakErrorHandlerWithContext;
  KeycloakRoles : list string;
  TokenContextKey : string;
  RolesContextKey : string
}.

Definition set_Skipper (config : KeycloakRolesConfig) (v : option Skipper_t) :=
  {| Skipper := v; BeforeFunc := BeforeFunc config;
     SuccessHandler := SuccessHandler config; ErrorHandler := ErrorHandler config;
     ErrorHandlerWithContext := ErrorHandlerWithContext config;
     KeycloakRoles := KeycloakRoles config;
     TokenContextKey := TokenContextKey config;
     RolesContextKey := RolesContextKey config |}.

Definition set_KeycloakRoles (config : KeycloakRolesConfig) (v : list string) :=
  {| Skipper := Skipper config; BeforeFunc := BeforeFunc config;
     SuccessHandler := SuccessHandler config; ErrorHandler := ErrorHandler config;
     ErrorHandlerWithContext := ErrorHandlerWithContext config;
     KeycloakRoles := v;
     TokenContextKey := TokenContextKey config;
     RolesContextKey := RolesContextKey config |}.

Definition set_TokenContextKey (config : KeycloakRolesConfig) (v : string) :=
  {| Skipper := Skipper config; BeforeFunc := BeforeFunc config;
     SuccessHandler := SuccessHandler config; ErrorHandler := ErrorHandler config;
     ErrorHandlerWithContext := ErrorHandlerWithContext config;
     KeycloakRoles := KeycloakRoles config;
     TokenContextKey := v;
     RolesContextKey := RolesContextKey config |}.

End KRC.

Definition ErrClaimsMissing : error :=
  NewHTTPError http.StatusInternalServerError "no claims in context found".
Definition ErrRealmAccessMissing : error :=
  NewHTTPError http.StatusInternalServerError "no realm_access in claims found".
Definition ErrRolesMissing : error :=
  NewHTTPError http.StatusInternalServerError "no roles in realm_access claim found".
Definition ErrRolesInvalid : error :=
  NewHTTPError http.StatusForbidden "invalid roles".

(** [DefaultKeycloakRolesConfig]: the default roles middleware config. *)
Definition DefaultKeycloakRolesConfig : KRC.KeycloakRolesConfig :=
  {| KRC.Skipper := Some DefaultSkipper;
     KRC.BeforeFunc := None;
     KRC.SuccessHandler := None;
     KRC.ErrorHandler := None;
     KRC.ErrorHandlerWithContext := None;
     KRC.KeycloakRoles := [];
     KRC.TokenContextKey := "user";
     KRC.RolesContextKey := "roles" |}.

(** Lines 76-84 of [KeycloakRolesWithConfig]. *)
Definition rolesDefaults (config : KRC.KeycloakRolesConfig)
  : result KRC.KeycloakRolesConfig :=
  let config :=
    match KRC.Skipper config with
    | None => KRC.set_Skipper config (KRC.Skipper DefaultKeycloakRolesConfig)
    | Some _ => config
    end in
  if (length (KRC.KeycloakRoles config) =? 0)%nat
  then Panic "echo: keycloak roles middleware requires keycloak roles"
  else
    let config :=
      if String.eqb (KRC.TokenContextKey config) ""
      then KRC.set_TokenContextKey config (KRC.TokenContextKey DefaultKeycloakRolesConfig)
      else config in
    Ok config.

(** Line 98: the value read from the context is asserted to be a pointer to
    [jwt.Token] in the one-result form of the type assertion, which panics
    unless the slot holds such a pointer; the read of [token.Claims] on
    line 99 then panics on a nil pointer. *)
Definition tokenFromContext (v : option Value) : result jwt.Token :=
  match v with
  | Some (VToken (Some token)) => Ok token
  | Some (VToken None) => Panic "invalid memory address or nil pointer dereference"
  | Some (VStrings _) => Panic "interface conversion: interface {} is []string, not *jwt.Token"
  | Some (VOther _) => Panic "interface conversion: interface {} is not *jwt.Token"
  | None => Panic "interface conversion: interface {} is nil, not *jwt.Token"
  end.

(** Lines 111-113: [roles = append(roles, r.(string))] over [rolesRaw]; the
    assertion is again in its one-result form. *)
Fixpoint appendRoles (rolesRaw : list JSON) (roles : list string) : result (list string) :=
  match rolesRaw with
  | [] => Ok roles
  | r :: rest =>
      match r with
      | JString s => appendRoles rest (roles ++ [s])
      | _ => Panic "interface conversion: interface {} is not string"
      end
  end.

(** Lines 114-119: the loop over the required roles; [break] leaves it at
    the first role that [roles] does not contain. *)
Fixpoint checkRoles (required roles : list string) (err : option error) : option error :=
  match required with
  | [] => err
  | r :: rest =>
      if negb (funk.ContainsString roles r)
      then Some ErrRolesInvalid
      else checkRoles rest roles err
  end.

(** Is the claim value a Go string. *)
Definition isString (v : JSON) : bool :=
  match v with JString _ => true | _ => false end.

(** The three type assertions of lines 99, 103 and 107, in their two-result
    form: [Some] is [ok == true].  A missing map entry reads as nil, which
    no assertion accepts. *)
Definition asMapClaims (claims : option jwt.Claims) : option (gmap string JSON) :=
  match claims with
  | Some (jwt.MapClaims m) => Some m
  | _ => None
  end.

Definition asObject (v : option JSON) : option (gmap string JSON) :=
  match v with
  | Some (JObject m) => Some m
  | _ => None
  end.

Definition asArray (v : option JSON) : option (list JSON) :=
  match v with
  | Some (JArray l) => Some l
  | _ => None
  end.

(** Lines 96-122: from the token to the error and the role list. *)
Definition resolveRoles (required : list string) (token : jwt.Token)
  : result (option error * list string) :=
  match asMapClaims (jwt.TokenClaims token) with
  | None => Ok (Some ErrClaimsMissing, [])
  | Some claims =>
      match asObject (claims !! "realm_access") with
      | None => Ok (Some ErrRealmAccessMissing, [])
      | Some realmAcces =>
          match asArray (realmAcces !! "roles") with
          | None => Ok (Some ErrRolesMissing, [])
          | Some rolesRaw =>
              roles ← appendRoles rolesRaw [];
              Ok (checkRoles required roles None, roles)
          end
      end
  end.

Section KeycloakRoles.

(** The [Error()] method of Go's [error] interface; echo formats an
    [HTTPError] from its code and message. *)
Variable Error : error → string.

(** Lines 86-142: the handler the middleware wraps around [next]. *)
Definition rolesHandler (config : KRC.KeycloakRolesConfig) (next : HandlerFunc)
  : HandlerFunc :=
  fun c =>
    skip ← call_Skipper (KRC.Skipper config) c;
    if skip : bool then next c
    else
      let c := run_hook (KRC.BeforeFunc config) c in
      token ← tokenFromContext (c_Get c (KRC.TokenContextKey DefaultKeycloakRolesConfig));
      '(err, roles) ← resolveRoles (KRC.KeycloakRoles config) token;
      if (match err with None => true | Some _ => false end) && jwt.Valid token then
        let c := c_Set c (KRC.RolesContextKey config) (VStrings roles) in
        let c := run_hook (KRC.SuccessHandler config) c in
        next c
      else
        Ok (keycloakFail (KRC.ErrorHandler config) (KRC.ErrorHandlerWithContext config)
              (Some (HTTPError http.StatusForbidden (Error ErrRolesInvalid) err))
              err c).

(** [KeycloakRolesWithConfig]: the roles middleware for a config. *)
Definition KeycloakRolesWithConfig (config : KRC.KeycloakRolesConfig)
  : result MiddlewareFunc :=
  config ← rolesDefaults config;
  Ok (rolesHandler config).

(** [KeycloakRoles]: the roles middleware with the default config. *)
Definition KeycloakRoles (roles : list string) : result MiddlewareFunc :=
  let c := DefaultKeycloakRolesConfig in
  let c := KRC.set_KeycloakRoles c roles in
  KeycloakRolesWithConfig c.

End KeycloakRoles.

(** ** Vocabulary of the statements *)

(** Does the byte [a] occur in [s]. *)
Fixpoint occurs (a : ascii) (s : string) : bool :=
  match s with
  | EmptyString => false
  | String b s' => Ascii.eqb a b || occurs a s'
  end.

(** A decode result the auth gate refuses: an error, or a token whose
    [Valid] flag is not set. *)
Definition validationFailed (token : option jwt.Token) (err : option error) : Prop :=
  err ≠ None ∨ ∃ t, token = Some t ∧ jwt.Valid t = false.

(** The hooks of an auth config that receive the context leave the slot
    [key] as they found it. *)
Definition hooksKeepSlot (config : KC.KeycloakConfig) (key : string) : Prop :=
  (∀ f x, KC.BeforeFunc config = Some f → c_Get (f x) key = c_Get x key)
  ∧ (∀ h e x, KC.ErrorHandlerWithContext config = Some h →
              c_Get (h e x).1 key = c_Get x key).

(** ** The two gates in a chain

    The auth middleware wraps the roles middleware, which wraps the route's
    handler, as the example's group and route registration set them up. *)
Definition chain (NewClient : string → GoCloak) (Error : error → string)
    (auth : KC.KeycloakConfig) (roles : KRC.KeycloakRolesConfig)
    (handler : HandlerFunc) : result HandlerFunc :=
  authGate ← KeycloakWithConfig NewClient auth;
  rolesGate ← KeycloakRolesWithConfig Error roles;
  Ok (authGate (rolesGate handler)).

(** Running a handler that construction may have refused to build. *)
Definition serve (h : result HandlerFunc) (c : Context)
  : result (Context * option error) :=
  handler ← h; handler c.

(** ** Requests and collaborators to run the gates on *)

Module Fixtures.

(** A request with no header, parameter or cookie and an empty store. *)
Definition emptyContext : Context :=
  {| HeaderGet := fun _ => ""; QueryParam := fun _ => ""; Param := fun _ => "";
     Cookie := fun _ => None; store := ∅ |}.

Definition withHeader (name value : string) (c : Context) : Context :=
  {| HeaderGet := fun h => if String.eqb h name then value else HeaderGet c h;
     QueryParam := QueryParam c; Param := Param c; Cookie := Cookie c;
     store := store c |}.

Definition withStore (st : gmap string Value) (c : Context) : Context :=
  {| HeaderGet := HeaderGet c; QueryParam := QueryParam c; Param := Param c;
     Cookie := Cookie c; store := st |}.

(** A token whose claims are [{"realm_access": {"roles": roles}}]. *)
Definition tokenWithRoles (valid : bool) (roles : list JSON) : jwt.Token :=
  {| jwt.Valid := valid;
     jwt.TokenClaims :=
       Some (jwt.MapClaims {[ "realm_access" := JObject {[ "roles" := JArray roles ]} ]}) |}.

(** A token whose claims have no [realm_access] entry. *)
Definition tokenWithoutRealmAccess : jwt.Token :=
  {| jwt.Valid := true;
     jwt.TokenClaims := Some (jwt.MapClaims {[ "sub" := JString "alice" ]}) |}.

(** An identity provider that knows one token, "good", of a user with the
    role "admin", whichever decode method is asked. *)
Definition provider : GoCloak :=
  {| DecodeAccessToken := fun auth _ =>
       if String.eqb auth "good"
       then (Some (tokenWithRoles true [JString "admin"]), None, None)
       else (None, None, Some (ClientError "token is not valid"));
     DecodeAccessTokenCustomClaims := fun auth _ _ =>
       if String.eqb auth "good"
       then (Some (tokenWithRoles true [JString "admin"]), None)
       else (None, Some (ClientError "token is not valid")) |}.

(** A client whose two decode methods disagree on every token: the default
    decode accepts, the custom-claims decode refuses. *)
Definition splitProvider : GoCloak :=
  {| DecodeAccessToken := fun _ _ =>
       (Some (tokenWithRoles true [JString "admin"]), None, None);
     DecodeAccessTokenCustomClaims := fun _ _ _ =>
       (None, Some (ClientError "custom claims decode refused")) |}.

(** A request that presents the token "good" in the Authorization header. *)
Definition goodRequest : Context :=
  withHeader "Authorization" "Bearer good" emptyContext.

(** The last handler of a chain: answers without an error. *)
Definition finalHandler : HandlerFunc := fun c => Ok (c, None).

(** A rendering of errors for the runs below. *)
Definition message (e : error) : string :=
  match e with
  | HTTPError _ m _ => m
  | ClientError m => m
  end.

(** An auth config with the given context key and no custom claims. *)
Definition authConfig (contextKey : string) : KC.KeycloakConfig :=
  {| KC.Skipper := None; KC.BeforeFunc := None; KC.SuccessHandler := None;
     KC.ErrorHandler := None; KC.ErrorHandlerWithContext := None;
     KC.KeycloakURL := "http://localhost:8080"; KC.KeycloakRealm := "test";
     KC.ContextKey := contextKey; KC.Claims := None;
     KC.TokenLookup := ""; KC.AuthScheme := "" |}.

(** The same config as construction completes it. *)
Definition authReady (contextKey : string) : KC.KeycloakConfig :=
  {| KC.Skipper := Some DefaultSkipper; KC.BeforeFunc := None;
     KC.SuccessHandler := None;
     KC.ErrorHandler := None; KC.ErrorHandlerWithContext := None;
     KC.KeycloakURL := "http://localhost:8080"; KC.KeycloakRealm := "test";
     KC.ContextKey := contextKey; KC.Claims := Some (jwt.MapClaims ∅);
     KC.TokenLookup := "header:Authorization"; KC.AuthScheme := "Bearer" |}.

(** An auth config whose lookup string misspells its source. *)
Definition misspelledLookup : KC.KeycloakConfig :=
  {| KC.Skipper := None; KC.BeforeFunc := None; KC.SuccessHandler := None;
     KC.ErrorHandler := None; KC.ErrorHandlerWithContext := None;
     KC.KeycloakURL := "http://localhost:8080"; KC.KeycloakRealm := "test";
     KC.ContextKey := "user"; KC.Claims := None;
     KC.TokenLookup := "haeder:X-Token"; KC.AuthScheme := "Bearer" |}.

(** A roles config that requires "admin" and names the given token key. *)
Definition rolesConfig (tokenContextKey : string) : KRC.KeycloakRolesConfig :=
  {| KRC.Skipper := None; KRC.BeforeFunc := None; KRC.SuccessHandler := None;
     KRC.ErrorHandler := None; KRC.ErrorHandlerWithContext := None;
     KRC.KeycloakRoles := ["admin"];
     KRC.TokenContextKey := tokenContextKey;
     KRC.RolesContextKey := "roles" |}.

Definition withCookie (name value : string) (c : Context) : Context :=
  {| HeaderGet := HeaderGet c; QueryParam := QueryParam c; Param := Param c;
     Cookie := fun k => if String.eqb k name then Some value else Cookie c k;
     store := store c |}.

(** A completed auth config that looks the token up in the cookie "token". *)
Definition cookieReady : KC.KeycloakConfig :=
  {| KC.Skipper := Some DefaultSkipper; KC.BeforeFunc := None;
     KC.SuccessHandler := None;
     KC.ErrorHandler := None; KC.ErrorHandlerWithContext := None;
     KC.KeycloakURL := "http://localhost:8080"; KC.KeycloakRealm := "test";
     KC.ContextKey := "user"; KC.Claims := Some (jwt.MapClaims ∅);
     KC.TokenLookup := "cookie:token"; KC.AuthScheme := "Bearer" |}.

(** A completed roles config with the given required roles. *)
Definition rolesReady (required : list string) : KRC.KeycloakRolesConfig :=
  {| KRC.Skipper := Some DefaultSkipper; KRC.BeforeFunc := None;
     KRC.SuccessHandler := None;
     KRC.ErrorHandler := None; KRC.ErrorHandlerWithContext := None;
     KRC.KeycloakRoles := required;
     KRC.TokenContextKey := "user";
     KRC.RolesContextKey := "roles" |}.

(** A request context whose slot "user" holds the given token. *)
Definition withToken (t : jwt.Token) (c : Context) : Context :=
  withStore {[ "user" := VToken (Some t) ]} c.

End Fixtures.

(** * Properties *)

(** ** Strings and slices *)

Lemma length_append (s t : string) :
  String.length (s +:+ t) = (String.length s + String.length t)%nat.
Proof. induction s as [|a s IH]; simpl; [done|]. by rewrite IH. Qed.

Lemma len_append (s t : string) : len (s +:+ t) = len s + len t.
Proof. unfold len. rewrite length_append. lia. Qed.

Lemma len_nonneg (s : string) : 0 <= len s.
Proof. unfold len; lia. Qed.

Lemma substring_all (s : string) : String.substring 0 (String.length s) s = s.
Proof. induction s as [|a s IH]; simpl; [done|]. by rewrite IH. Qed.

Lemma substring_prefix (p s : string) :
  String.substring 0 (String.length p) (p +:+ s) = p.
Proof.
  induction p as [|a p IH]; simpl.
  - by destruct s.
  - by rewrite IH.
Qed.

Lemma substring_skip (p s : string) (m : nat) :
  String.substring (String.length p) m (p +:+ s) = String.substring 0 m s.
Proof. induction p as [|a p IH]; simpl; done. Qed.

Lemma substring_split (s : string) (n : nat) :
  (n ≤ String.length s)%nat →
  s = String.substring 0 n s +:+ String.substring n (String.length s - n) s
  ∧ String.length (String.substring 0 n s) = n.
Proof.
  revert n. induction s as [|a s IH]; intros n Hn; simpl in Hn.
  - assert (n = 0%nat) as -> by lia. done.
  - destruct n as [|n]; simpl.
    + split; [|done]. by rewrite substring_all.
    + destruct (IH n ltac:(lia)) as [Heq Hlen]. split; [|by rewrite Hlen].
      change (String a s = String a (String.substring 0 n s
                +:+ String.substring n (String.length s - n) s)).
      by rewrite <- Heq.
Qed.

Lemma slice_to_prefix (p s : string) : slice_to (p +:+ s) (len p) = p.
Proof. unfold slice_to, len. rewrite Nat2Z.id. apply substring_prefix. Qed.

Lemma slice_from_suffix (p : string) (sep : ascii) (s : string) :
  slice_from (p +:+ String sep s) (len p + 1) = s.
Proof.
  unfold slice_from, len.
  replace (Z.to_nat (Z.of_nat (String.length p) + 1)) with (String.length (p +:+ String sep "")) by (rewrite length_append; simpl; lia).
  replace (p +:+ String sep s) with ((p +:+ String sep "") +:+ s).
  - rewrite substring_skip. rewrite !length_append. simpl.
    replace (String.length p + 1 + String.length s - (String.length p + 1))%nat
      with (String.length s) by lia.
    apply substring_all.
  - clear. induction p as [|a p IH]; [done|].
    change (String a ((p +:+ String sep "") +:+ s) = String a (p +:+ String sep s)).
    by rewrite IH.
Qed.

(** A header value that passes the length test is its first [l] bytes, one
    more byte, and the slice the extractor returns. *)
Lemma slice_decompose (auth : string) (l : Z) :
  0 <= l → l + 1 < len auth →
  ∃ sep, auth = slice_to auth l +:+ String sep (slice_from auth (l + 1))
         ∧ len (slice_to auth l) = l
         ∧ slice_from auth (l + 1) ≠ "".
Proof.
  intros Hl Hlen. unfold len in Hlen.
  destruct (substring_split auth (Z.to_nat l) ltac:(lia)) as [Heq Hpl].
  fold (slice_to auth l) in Heq, Hpl.
  set (rest := String.substring (Z.to_nat l) (String.length auth - Z.to_nat l) auth) in *.
  assert (String.length rest = (String.length auth - Z.to_nat l)%nat) as Hrest.
  { apply (f_equal String.length) in Heq. rewrite length_append, Hpl in Heq. lia. }
  destruct rest as [|sep tok] eqn:Erest; simpl in Hrest; [lia|].
  exists sep.
  assert (slice_from auth (l + 1) = tok) as ->.
  { rewrite Heq at 1. rewrite <- (slice_from_suffix (slice_to auth l) sep tok) at 2.
    f_equal. unfold len. rewrite Hpl. lia. }
  split; [done|]. split; [unfold len; lia|].
  destruct tok; simpl in Hrest; [lia|done].
Qed.

(** ** The header extractor *)

(** The extractor has two outcomes, chosen by the length test and the
    comparison of the lowered prefix. *)
Lemma tokenFromHeader_cases (header authScheme : string) (c : Context) :
  let auth := HeaderGet c header in
  let l := len authScheme in
  (l + 1 < len auth ∧ strings.ToLower (slice_to auth l) = strings.ToLower authScheme
   ∧ tokenFromHeader header authScheme c = (slice_from auth (l + 1), None))
  ∨ (¬ (l + 1 < len auth ∧ strings.ToLower (slice_to auth l) = strings.ToLower authScheme)
     ∧ tokenFromHeader header authScheme c = ("", Some ErrTokenMissing)).
Proof.
  intros auth l. unfold tokenFromHeader. fold auth l.
  destruct (l + 1 <? len auth) eqn:Hlen; simpl.
  - apply Z.ltb_lt in Hlen.
    destruct (String.eqb _ _) eqn:Heq.
    + apply String.eqb_eq in Heq. by left.
    + apply String.eqb_neq in Heq. right. split; [|done]. by intros [_ ?].
  - apply Z.ltb_ge in Hlen. right. split; [|done]. intros [? _]. lia.
Qed.

Lemma occurs_append (p : string) (a : ascii) (t : string) :
  occurs a (p +:+ String a t) = true.
Proof.
  induction p as [|b p IH].
  - simpl. by rewrite Ascii.eqb_refl.
  - change (Ascii.eqb a b || occurs a (p +:+ String a t) = true).
    rewrite IH. apply orb_true_r.
Qed.

(** C4 (as the code has it): the header extractor returns a token exactly
    when the header value is a prefix that equals the scheme once both are
    lowered, then one byte of any value, then a non-empty rest; the token is
    that rest, and the header value is then longer than [len(scheme)+1].
    In every other case it returns [ErrTokenMissing] with an empty token.
    The byte after the scheme is skipped, not compared with a space. *)
Theorem tokenFromHeader_any_separator (header authScheme : string) (c : Context) :
  (∀ tok : string,
      tokenFromHeader header authScheme c = (tok, None) ↔
      ∃ (p : string) (sep : ascii),
        HeaderGet c header = p +:+ String sep tok
        ∧ len p = len authScheme
        ∧ strings.ToLower p = strings.ToLower authScheme
        ∧ tok ≠ "")
  ∧ (∀ tok : string,
      tokenFromHeader header authScheme c = (tok, None) →
      len authScheme + 1 < len (HeaderGet c header)
      ∧ tok = slice_from (HeaderGet c header) (len authScheme + 1))
  ∧ ((∃ tok : string, tokenFromHeader header authScheme c = (tok, None))
     ∨ tokenFromHeader header authScheme c = ("", Some ErrTokenMissing)).
Proof.
  pose proof (tokenFromHeader_cases header authScheme c) as Hcases.
  simpl in Hcases. split; [|split].
  - intros tok. split.
    + intros Hret. destruct Hcases as [(Hlen & Hlow & Heq)|[_ Heq]];
        rewrite Heq in Hret; [|done].
      injection Hret as <-.
      destruct (slice_decompose (HeaderGet c header) (len authScheme)
                  (len_nonneg _) Hlen) as (sep & Hdec & Hpl & Hne).
      by exists (slice_to (HeaderGet c header) (len authScheme)), sep.
    + intros (p & sep & Hauth & Hpl & Hlow & Hne).
      assert (len authScheme + 1 < len (HeaderGet c header)) as Hlen.
      { rewrite Hauth, len_append, Hpl.
        destruct tok as [|b tok]; [done|].
        unfold len. simpl String.length. lia. }
      assert (slice_to (HeaderGet c header) (len authScheme) = p) as Hp.
      { rewrite Hauth, <- Hpl. apply slice_to_prefix. }
      destruct Hcases as [(_ & _ & Heq)|[Hno _]].
      * rewrite Heq, Hauth, <- Hpl. by rewrite slice_from_suffix.
      * exfalso. apply Hno. by rewrite Hp.
  - intros tok Hret. destruct Hcases as [(Hlen & _ & Heq)|[_ Heq]];
      rewrite Heq in Hret; [|done].
    by injection Hret as <-.
  - destruct Hcases as [(_ & _ & Heq)|[_ Heq]]; [left; eauto|by right].
Qed.

(** The usual request: header "Bearer abc123", scheme "Bearer". *)
Lemma tokenFromHeader_any_separator_witness :
  tokenFromHeader "Authorization" "Bearer"
    (Fixtures.withHeader "Authorization" "Bearer abc123" Fixtures.emptyContext)
  = ("abc123", None).
Proof.
  apply (proj1 (tokenFromHeader_any_separator "Authorization" "Bearer"
         (Fixtures.withHeader "Authorization" "Bearer abc123" Fixtures.emptyContext))).
  exists "Bearer", " "%char. repeat split; done.
Defined.

(** C4 as written fails: a header value whose byte after the scheme is not
    a space still yields a token. *)
Lemma tokenFromHeader_accepts_non_space :
  tokenFromHeader "Authorization" "Bearer"
    (Fixtures.withHeader "Authorization" "Bearer_abc123" Fixtures.emptyContext)
  = ("abc123", None)
  ∧ ¬ (∃ p tok : string, "Bearer_abc123" = p +:+ String " " tok).
Proof.
  split; [reflexivity|].
  intros (p & tok & Heq).
  pose proof (occurs_append p " " tok) as Hocc.
  rewrite <- Heq in Hocc. discriminate Hocc.
Qed.

(** ** The role list and the membership check *)

Lemma ContainsString_elem_of (s : list string) (v : string) :
  funk.ContainsString s v = true ↔ v ∈ s.
Proof.
  induction s as [|item rest IH]; simpl.
  - split; [done|]. by intros ?%elem_of_nil.
  - rewrite elem_of_cons. destruct (String.eqb item v) eqn:Heq.
    + apply String.eqb_eq in Heq. split; [by left|done].
    + apply String.eqb_neq in Heq. rewrite IH. split; [by right|].
      by intros [?|?].
Qed.

Lemma appendRoles_strings (names acc : list string) :
  appendRoles (JString <$> names) acc = Ok (acc ++ names)%list.
Proof.
  revert acc. induction names as [|n names IH]; intros acc; simpl.
  - by rewrite app_nil_r.
  - rewrite IH. by rewrite <- app_assoc.
Qed.

Lemma appendRoles_non_string (rolesRaw : list JSON) (acc : list string) :
  (∃ v, v ∈ rolesRaw ∧ isString v = false) → panics (appendRoles rolesRaw acc).
Proof.
  revert acc. induction rolesRaw as [|r rest IH]; intros acc (v & Hin & Hv).
  - by apply elem_of_nil in Hin.
  - apply elem_of_cons in Hin as [->|Hin].
    + by destruct r.
    + destruct r; simpl; try done. apply IH. eauto.
Qed.

(** With well-formed claims the role extractor hands the decoded names to
    the membership check. *)
Lemma resolveRoles_wellformed (required names : list string) (valid : bool) :
  resolveRoles required (Fixtures.tokenWithRoles valid (JString <$> names))
  = Ok (checkRoles required names None, names).
Proof.
  unfold resolveRoles, Fixtures.tokenWithRoles. simpl.
  rewrite lookup_singleton_eq. simpl. rewrite lookup_singleton_eq. simpl.
  by rewrite appendRoles_strings.
Qed.

Lemma checkRoles_outcomes (required roles : list string) :
  checkRoles required roles None = None
  ∨ checkRoles required roles None = Some ErrRolesInvalid.
Proof.
  induction required as [|r rest IH]; simpl; [by left|].
  destruct (funk.ContainsString roles r); simpl; [done|by right].
Qed.

Lemma checkRoles_None (required roles : list string) :
  checkRoles required roles None = None ↔ ∀ r, r ∈ required → r ∈ roles.
Proof.
  induction required as [|r rest IH]; simpl.
  - split; [|done]. by intros _ r ?%elem_of_nil.
  - destruct (funk.ContainsString roles r) eqn:Hc; simpl.
    + apply ContainsString_elem_of in Hc. rewrite IH. split.
      * intros Hall x [->|Hx]%elem_of_cons; auto.
      * intros Hall x Hx. apply Hall. by right.
    + split; [done|]. intros Hall. exfalso.
      assert (r ∈ roles) as Hr by (apply Hall; left).
      apply ContainsString_elem_of in Hr. congruence.
Qed.

Lemma checkRoles_first_missing (pre : list string) (r : string)
    (post roles : list string) :
  (∀ x, x ∈ pre → x ∈ roles) → r ∉ roles →
  checkRoles (pre ++ r :: post) roles None = Some ErrRolesInvalid.
Proof.
  intros Hpre Hr. induction pre as [|p pre IH]; simpl.
  - destruct (funk.ContainsString roles r) eqn:Hc; [|done].
    apply ContainsString_elem_of in Hc. done.
  - assert (funk.ContainsString roles p = true) as ->.
    { apply ContainsString_elem_of, Hpre. left. }
    simpl. apply IH. intros x Hx. apply Hpre. by right.
Qed.

(** C7: the membership check succeeds exactly when every required role is
    in the resolved list; otherwise it yields [ErrRolesInvalid], decided at
    the first required role that is absent, whatever roles come after it in
    the configured list; required roles admin, editor against the resolved
    role editor yield [ErrRolesInvalid]. *)
Theorem checkRoles_all_required (required roles : list string) :
  (checkRoles required roles None = None ↔ ∀ r, r ∈ required → r ∈ roles)
  ∧ (checkRoles required roles None ≠ None →
     checkRoles required roles None = Some ErrRolesInvalid)
  ∧ (∀ (pre : list string) (r : string) (post : list string),
       required = (pre ++ r :: post)%list →
       (∀ x, x ∈ pre → x ∈ roles) → r ∉ roles →
       ∀ post' : list string,
         checkRoles (pre ++ r :: post') roles None = Some ErrRolesInvalid)
  ∧ checkRoles ["admin"; "editor"] ["editor"] None = Some ErrRolesInvalid.
Proof.
  split; [apply checkRoles_None|]. split; [|split; [|reflexivity]].
  - intros Hne. by destruct (checkRoles_outcomes required roles).
  - intros pre r post _ Hpre Hr post'. by apply checkRoles_first_missing.
Qed.

(** The scenario of C7, through the role extractor: a token with the one
    role editor, checked against the required roles admin and editor. *)
Lemma checkRoles_all_required_witness :
  resolveRoles ["admin"; "editor"] (Fixtures.tokenWithRoles true [JString "editor"])
  = Ok (Some ErrRolesInvalid, ["editor"]).
Proof.
  assert (checkRoles ["admin"; "editor"] ["editor"] None = Some ErrRolesInvalid) as Hcheck.
  { apply (proj1 (proj2 (proj2 (checkRoles_all_required ["admin"; "editor"] ["editor"])))
             [] "admin" ["editor"] eq_refl).
    - by intros x ?%elem_of_nil.
    - by intros ?%list_elem_of_singleton. }
  change [JString "editor"] with (JString <$> ["editor"]).
  rewrite (resolveRoles_wellformed ["admin"; "editor"] ["editor"] true).
  by rewrite Hcheck.
Defined.

(** ** The role gate and the context slot it reads *)

(** The handler never looks at the configured [TokenContextKey]: line 98
    reads the key of the default config. *)
Lemma rolesHandler_ignores_TokenContextKey (Error : error → string)
    (config : KRC.KeycloakRolesConfig) (K : string) :
  rolesHandler Error (KRC.set_TokenContextKey config K) = rolesHandler Error config.
Proof. reflexivity. Qed.

(** Without a token in the slot "user" the handler panics at line 98. *)
Lemma rolesHandler_empty_slot_panics (Error : error → string)
    (config : KRC.KeycloakRolesConfig) (next : HandlerFunc) (c : Context) :
  call_Skipper (KRC.Skipper config) c = Ok false →
  c_Get (run_hook (KRC.BeforeFunc config) c) "user" = None →
  rolesHandler Error config next c
  = Panic "interface conversion: interface {} is nil, not *jwt.Token".
Proof.
  intros Hskip Hslot. unfold rolesHandler. rewrite Hskip. simpl.
  by rewrite Hslot.
Qed.

(** C1 (the code departs from it): with both keys set to "token" the auth
    gate binds the token under "token" while the role gate reads the slot
    "user", finds it empty and panics; with both keys set to "user" the same
    request passes both gates.  Whatever key is configured, the role gate
    behaves the same. *)
Theorem chain_with_custom_key_panics :
  serve (chain (fun _ => Fixtures.provider) Fixtures.message
           (Fixtures.authConfig "token") (Fixtures.rolesConfig "token")
           Fixtures.finalHandler) Fixtures.goodRequest
  = Panic "interface conversion: interface {} is nil, not *jwt.Token"
  ∧ (∃ c' : Context,
       serve (chain (fun _ => Fixtures.provider) Fixtures.message
                (Fixtures.authConfig "user") (Fixtures.rolesConfig "user")
                Fixtures.finalHandler) Fixtures.goodRequest
       = Ok (c', None)
       ∧ c_Get c' "roles" = Some (VStrings ["admin"]))
  ∧ (∀ (Error : error → string) (config : KRC.KeycloakRolesConfig) (K : string),
       rolesHandler Error (KRC.set_TokenContextKey config K)
       = rolesHandler Error config).
Proof.
  split; [reflexivity|]. split.
  - eexists. split; reflexivity.
  - apply rolesHandler_ignores_TokenContextKey.
Qed.

(** C2 (the code departs from it): when the role gate runs on a request
    whose context holds no token, the one-result type assertion of line 98
    panics; no [ErrClaimsMissing] is returned. *)
Theorem roles_gate_without_principal_panics (Error : error → string)
    (next : HandlerFunc) :
  serve (mw ← KeycloakRoles Error ["admin"]; Ok (mw next)) Fixtures.emptyContext
  = Panic "interface conversion: interface {} is nil, not *jwt.Token".
Proof. reflexivity. Qed.

(** C6 (the code departs from it): a roles list with an element that is not
    a string makes the one-result type assertion of line 112 panic, in the
    role extractor and so in the gate; no [ErrRolesMissing] is returned. *)
Theorem non_string_role_panics (Error : error → string) (next : HandlerFunc) :
  resolveRoles ["admin"] (Fixtures.tokenWithRoles true [JString "admin"; JNumber 42])
  = Panic "interface conversion: interface {} is not string"
  ∧ serve (mw ← KeycloakRoles Error ["admin"]; Ok (mw next))
      (Fixtures.withStore
         {[ "user" := VToken (Some (Fixtures.tokenWithRoles true
                                      [JString "admin"; JNumber 42])) ]}
         Fixtures.emptyContext)
    = Panic "interface conversion: interface {} is not string".
Proof. split; reflexivity. Qed.

(** Any roles list with a non-string element does so. *)
Lemma resolveRoles_non_string_panics (required : list string) (token : jwt.Token)
    (claims realmAcces : gmap string JSON) (rolesRaw : list JSON) :
  asMapClaims (jwt.TokenClaims token) = Some claims →
  asObject (claims !! "realm_access") = Some realmAcces →
  asArray (realmAcces !! "roles") = Some rolesRaw →
  (∃ v, v ∈ rolesRaw ∧ isString v = false) →
  panics (resolveRoles required token).
Proof.
  intros Hc Hr Ha Hv. unfold resolveRoles. rewrite Hc, Hr, Ha.
  pose proof (appendRoles_non_string rolesRaw [] Hv) as Hp.
  by destruct (appendRoles rolesRaw []).
Qed.

(** ** The role gate's default response *)

(** C3 (as the code has it): for a token whose claims are a mapping without
    a [realm_access] sub-mapping, a role gate without error hooks returns an
    [HTTPError] with status 403 and the text of [ErrRolesInvalid], whose
    [Internal] error is [ErrRealmAccessMissing]; that inner error is the one
    declared with status 500.  The context is left as the pre-hook left it. *)
Theorem realm_access_missing_response (Error : error → string)
    (config : KRC.KeycloakRolesConfig) (next : HandlerFunc) (c : Context)
    (token : jwt.Token) (claims : gmap string JSON) :
  call_Skipper (KRC.Skipper config) c = Ok false →
  c_Get (run_hook (KRC.BeforeFunc config) c) "user" = Some (VToken (Some token)) →
  asMapClaims (jwt.TokenClaims token) = Some claims →
  asObject (claims !! "realm_access") = None →
  KRC.ErrorHandler config = None →
  KRC.ErrorHandlerWithContext config = None →
  rolesHandler Error config next c
  = Ok (run_hook (KRC.BeforeFunc config) c,
        Some (HTTPError http.StatusForbidden (Error ErrRolesInvalid)
                (Some ErrRealmAccessMissing)))
  ∧ Code ErrRealmAccessMissing = Some http.StatusInternalServerError.
Proof.
  intros Hskip Hslot Hclaims Hrealm Hh1 Hh2. split; [|reflexivity].
  unfold rolesHandler. rewrite Hskip. simpl. rewrite Hslot. simpl.
  unfold resolveRoles. rewrite Hclaims, Hrealm. simpl.
  unfold keycloakFail. by rewrite Hh1, Hh2.
Qed.

Lemma realm_access_missing_response_witness :
  rolesHandler Fixtures.message
    (KRC.set_Skipper (Fixtures.rolesConfig "user") (Some DefaultSkipper))
    Fixtures.finalHandler
    (Fixtures.withStore {[ "user" := VToken (Some Fixtures.tokenWithoutRealmAccess) ]}
       Fixtures.emptyContext)
  = Ok (Fixtures.withStore {[ "user" := VToken (Some Fixtures.tokenWithoutRealmAccess) ]}
          Fixtures.emptyContext,
        Some (HTTPError 403 "invalid roles"
                (Some (HTTPError 500 "no realm_access in claims found" None))))
  ∧ Code ErrRealmAccessMissing = Some 500.
Proof.
  apply (realm_access_missing_response Fixtures.message
           (KRC.set_Skipper (Fixtures.rolesConfig "user") (Some DefaultSkipper))
           Fixtures.finalHandler _ Fixtures.tokenWithoutRealmAccess
           {[ "sub" := JString "alice" ]}); reflexivity.
Defined.

(** C3 as written fails: the response for a token without [realm_access]
    does not have status 500. *)
Lemma realm_access_missing_is_not_500 :
  ¬ (∃ (c' : Context) (e : error),
       serve (mw ← KeycloakRoles Fixtures.message ["admin"];
              Ok (mw Fixtures.finalHandler))
         (Fixtures.withStore
            {[ "user" := VToken (Some Fixtures.tokenWithoutRealmAccess) ]}
            Fixtures.emptyContext)
       = Ok (c', Some e)
       ∧ Code e = Some http.StatusInternalServerError).
Proof.
  intros (c' & e & Hrun & Hcode).
  vm_compute in Hrun. injection Hrun as _ <-. discriminate Hcode.
Qed.

(** ** The auth gate *)

(** What construction yields, once the defaults and the extractor are known. *)
Lemma KeycloakWithConfig_handler (NewClient : string → GoCloak)
    (config config' : KC.KeycloakConfig) (extractor : tokenExtractor) :
  keycloakDefaults config = Ok config' →
  keycloakExtractor config' = Ok extractor →
  KeycloakWithConfig NewClient config
  = Ok (keycloakHandler (NewClient (KC.KeycloakURL config')) config' extractor).
Proof.
  intros Hd He. unfold KeycloakWithConfig. rewrite Hd. simpl. by rewrite He.
Qed.

(** The defaults fill the empty fields and leave the hooks alone. *)
Lemma keycloakDefaults_fields (config config' : KC.KeycloakConfig) :
  keycloakDefaults config = Ok config' →
  KC.Skipper config' ≠ None
  ∧ KC.Claims config' ≠ None
  ∧ (KC.Claims config = None → KC.Claims config' = Some (jwt.MapClaims ∅))
  ∧ (∀ claims, KC.Claims config = Some claims → KC.Claims config' = Some claims)
  ∧ KC.BeforeFunc config' = KC.BeforeFunc config
  ∧ KC.SuccessHandler config' = KC.SuccessHandler config
  ∧ KC.ErrorHandler config' = KC.ErrorHandler config
  ∧ KC.ErrorHandlerWithContext config' = KC.ErrorHandlerWithContext config
  ∧ KC.KeycloakURL config' = KC.KeycloakURL config
  ∧ KC.KeycloakRealm config' = KC.KeycloakRealm config
  ∧ KC.ContextKey config'
    = (if String.eqb (KC.ContextKey config) "" then "user" else KC.ContextKey config)
  ∧ KC.TokenLookup config'
    = (if String.eqb (KC.TokenLookup config) "" then "header:Authorization"
       else KC.TokenLookup config)
  ∧ KC.AuthScheme config'
    = (if String.eqb (KC.AuthScheme config) "" then "Bearer" else KC.AuthScheme config).
Proof.
  destruct config as [sk bf sh eh ehc url realm key claims lookup scheme].
  unfold keycloakDefaults. simpl.
  destruct sk; simpl; (destruct (String.eqb url ""); simpl; [discriminate|]);
    destruct (String.eqb key ""); simpl; destruct claims; simpl;
    destruct (String.eqb lookup ""); simpl;
    destruct (String.eqb scheme ""); simpl;
    intros Heq; injection Heq as <-; simpl;
    repeat split; try done; intros; congruence.
Qed.

Lemma keycloakDefaults_ok (config : KC.KeycloakConfig) :
  KC.KeycloakURL config ≠ "" → ∃ config', keycloakDefaults config = Ok config'.
Proof.
  intros Hurl. apply String.eqb_neq in Hurl.
  destruct config as [sk bf sh eh ehc url realm key claims lookup scheme].
  unfold keycloakDefaults. simpl in *.
  destruct sk; simpl; rewrite Hurl; eauto.
Qed.

(** C5 (as the code has it): on a failure of the auth gate the context-free
    error hook, when configured, is called with the error and its result
    returned; else the context-aware hook, when configured, is called with
    the error and the request and its result returned; else, after a failed
    validation, the gate returns status 401 with the message "invalid or
    expired token" around the validation error, and after a failed
    extraction it returns the extractor's own error as it is. *)
Theorem keycloakHandler_failure_dispatch (client : GoCloak)
    (config : KC.KeycloakConfig) (extractor : tokenExtractor)
    (next : HandlerFunc) (c : Context) :
  call_Skipper (KC.Skipper config) c = Ok false →
  (∀ (auth : string) (e : error),
      extractor (run_hook (KC.BeforeFunc config) c) = (auth, Some e) →
      keycloakHandler client config extractor next c
      = Ok match KC.ErrorHandler config with
           | Some handler => (run_hook (KC.BeforeFunc config) c, handler (Some e))
           | None =>
               match KC.ErrorHandlerWithContext config with
               | Some handler => handler (Some e) (run_hook (KC.BeforeFunc config) c)
               | None => (run_hook (KC.BeforeFunc config) c, Some e)
               end
           end)
  ∧ (∀ (auth : string) (token : option jwt.Token) (err : option error),
      extractor (run_hook (KC.BeforeFunc config) c) = (auth, None) →
      keycloakDecode client config auth = (token, err) →
      (err ≠ None ∨ ∃ t, token = Some t ∧ jwt.Valid t = false) →
      keycloakHandler client config extractor next c
      = Ok match KC.ErrorHandler config with
           | Some handler => (run_hook (KC.BeforeFunc config) c, handler err)
           | None =>
               match KC.ErrorHandlerWithContext config with
               | Some handler => handler err (run_hook (KC.BeforeFunc config) c)
               | None =>
                   (run_hook (KC.BeforeFunc config) c,
                    Some (HTTPError http.StatusUnauthorized
                            "invalid or expired token" err))
               end
           end).
Proof.
  intros Hskip. split.
  - intros auth e Hex. unfold keycloakHandler. rewrite Hskip. simpl.
    rewrite Hex. reflexivity.
  - intros auth token err Hex Hdec Hbad. unfold keycloakHandler.
    rewrite Hskip. simpl. rewrite Hex, Hdec.
    assert (tokenAccepted token err = Ok false) as ->.
    { destruct Hbad as [Hne|(t & -> & Hv)].
      - by destruct err.
      - destruct err; simpl; [done|by rewrite Hv]. }
    reflexivity.
Qed.

(** A refused token with the default hooks: status 401 around the client's
    error. *)
Lemma keycloakHandler_failure_dispatch_witness :
  keycloakHandler Fixtures.provider (Fixtures.authReady "user")
    (tokenFromHeader "Authorization" "Bearer") Fixtures.finalHandler
    (Fixtures.withHeader "Authorization" "Bearer stale" Fixtures.emptyContext)
  = Ok (Fixtures.withHeader "Authorization" "Bearer stale" Fixtures.emptyContext,
        Some (HTTPError 401 "invalid or expired token"
                (Some (ClientError "token is not valid")))).
Proof.
  refine (proj2 (keycloakHandler_failure_dispatch Fixtures.provider
            (Fixtures.authReady "user")
            (tokenFromHeader "Authorization" "Bearer") Fixtures.finalHandler
            (Fixtures.withHeader "Authorization" "Bearer stale" Fixtures.emptyContext)
            eq_refl)
          "stale" None (Some (ClientError "token is not valid")) eq_refl _ _).
  - reflexivity.
  - left. discriminate.
Defined.

(** C5 as written fails: with no hooks, a request without a token is not
    answered with status 401 around the extraction error. *)
Lemma extraction_failure_is_not_401 :
  serve (mw ← Keycloak (fun _ => Fixtures.provider) "http://localhost:8080" "test";
         Ok (mw Fixtures.finalHandler)) Fixtures.emptyContext
  = Ok (Fixtures.emptyContext, Some ErrTokenMissing)
  ∧ Code ErrTokenMissing = Some http.StatusBadRequest
  ∧ ErrTokenMissing
    ≠ HTTPError http.StatusUnauthorized "invalid or expired token" (Some ErrTokenMissing).
Proof. split; [reflexivity|]. split; [reflexivity|discriminate]. Qed.

(** C8: the auth gate writes the token into the configured slot exactly on
    the path where validation returned no error and the token's [Valid] flag
    is set: there the success hook and the next handler run on the context
    with the token bound.  On every failure path (extraction error,
    validation error, flag not set) the gate returns without a write of its
    own: when the hooks it calls leave the slot alone, the slot holds at the
    end what it held at the start. *)
Theorem keycloakHandler_binds_on_success_only (client : GoCloak)
    (config : KC.KeycloakConfig) (extractor : tokenExtractor)
    (next : HandlerFunc) (c : Context) :
  call_Skipper (KC.Skipper config) c = Ok false →
  (∀ (auth : string) (t : jwt.Token),
      extractor (run_hook (KC.BeforeFunc config) c) = (auth, None) →
      keycloakDecode client config auth = (Some t, None) →
      jwt.Valid t = true →
      keycloakHandler client config extractor next c
      = next (run_hook (KC.SuccessHandler config)
                (c_Set (run_hook (KC.BeforeFunc config) c) (KC.ContextKey config)
                   (VToken (Some t))))
      ∧ c_Get (c_Set (run_hook (KC.BeforeFunc config) c) (KC.ContextKey config)
                 (VToken (Some t))) (KC.ContextKey config)
        = Some (VToken (Some t)))
  ∧ (∀ (auth : string) (e : error),
      extractor (run_hook (KC.BeforeFunc config) c) = (auth, Some e) →
      ∃ (c' : Context) (r : option error),
        keycloakHandler client config extractor next c = Ok (c', r)
        ∧ (hooksKeepSlot config (KC.ContextKey config) →
           c_Get c' (KC.ContextKey config) = c_Get c (KC.ContextKey config)))
  ∧ (∀ (auth : string) (token : option jwt.Token) (err : option error),
      extractor (run_hook (KC.BeforeFunc config) c) = (auth, None) →
      keycloakDecode client config auth = (token, err) →
      validationFailed token err →
      ∃ (c' : Context) (r : option error),
        keycloakHandler client config extractor next c = Ok (c', r)
        ∧ (hooksKeepSlot config (KC.ContextKey config) →
           c_Get c' (KC.ContextKey config) = c_Get c (KC.ContextKey config))).
Proof.
  intros Hskip.
  assert (∀ dflt err, ∃ c' r,
            keycloakFail (KC.ErrorHandler config) (KC.ErrorHandlerWithContext config)
              dflt err (run_hook (KC.BeforeFunc config) c) = (c', r)
            ∧ (hooksKeepSlot config (KC.ContextKey config) →
               c_Get c' (KC.ContextKey config) = c_Get c (KC.ContextKey config)))
    as Hfail.
  { intros dflt err. unfold keycloakFail.
    assert (hooksKeepSlot config (KC.ContextKey config) →
            c_Get (run_hook (KC.BeforeFunc config) c) (KC.ContextKey config)
            = c_Get c (KC.ContextKey config)) as Hbefore.
    { intros [Hb _]. destruct (KC.BeforeFunc config) as [f|]; simpl; [|done].
      by apply Hb. }
    destruct (KC.ErrorHandler config) as [h|]; [by eauto|].
    destruct (KC.ErrorHandlerWithContext config) as [h|] eqn:Hh; [|by eauto].
    destruct (h err (run_hook (KC.BeforeFunc config) c)) as [c' r] eqn:Hrun.
    exists c', r. split; [done|]. intros Hkeep.
    rewrite <- (Hbefore Hkeep). destruct Hkeep as [_ Hctx].
    specialize (Hctx h err (run_hook (KC.BeforeFunc config) c) Hh).
    by rewrite Hrun in Hctx. }
  split; [|split].
  - intros auth t Hex Hdec Hvalid. split.
    + unfold keycloakHandler. rewrite Hskip. simpl. rewrite Hex, Hdec. simpl.
      by rewrite Hvalid.
    + unfold c_Get, c_Set. simpl. apply lookup_insert_eq.
  - intros auth e Hex.
    destruct (Hfail (Some e) (Some e)) as (c' & r & Hrun & Hframe).
    exists c', r. split; [|done].
    unfold keycloakHandler. rewrite Hskip. simpl. rewrite Hex. by rewrite Hrun.
  - intros auth token err Hex Hdec Hbad.
    destruct (Hfail (Some (HTTPError http.StatusUnauthorized
                             "invalid or expired token" err)) err)
      as (c' & r & Hrun & Hframe).
    exists c', r. split; [|done].
    unfold keycloakHandler. rewrite Hskip. simpl. rewrite Hex, Hdec.
    assert (tokenAccepted token err = Ok false) as ->.
    { destruct Hbad as [Hne|(t & -> & Hv)].
      - by destruct err.
      - destruct err; simpl; [done|by rewrite Hv]. }
    simpl. by rewrite Hrun.
Qed.

(** The known token, presented to the gate with its default hooks, ends up
    under the key "user". *)
Lemma keycloakHandler_binds_on_success_only_witness :
  keycloakHandler Fixtures.provider (Fixtures.authReady "user")
    (tokenFromHeader "Authorization" "Bearer") Fixtures.finalHandler
    Fixtures.goodRequest
  = Ok (c_Set Fixtures.goodRequest "user"
          (VToken (Some (Fixtures.tokenWithRoles true [JString "admin"]))),
        None).
Proof.
  exact (proj1 (proj1 (keycloakHandler_binds_on_success_only Fixtures.provider
          (Fixtures.authReady "user") (tokenFromHeader "Authorization" "Bearer")
          Fixtures.finalHandler Fixtures.goodRequest eq_refl)
        "good" (Fixtures.tokenWithRoles true [JString "admin"])
        eq_refl eq_refl eq_refl)).
Defined.

(** A request the skipper matches goes to the next handler untouched. *)
Lemma keycloakHandler_skipped (client : GoCloak) (config : KC.KeycloakConfig)
    (extractor : tokenExtractor) (next : HandlerFunc) (c : Context) :
  call_Skipper (KC.Skipper config) c = Ok true →
  keycloakHandler client config extractor next c = next c.
Proof. intros Hskip. unfold keycloakHandler. by rewrite Hskip. Qed.

(** The one remaining path: a nil token without an error.  The gate panics
    while reading the flag, before any write. *)
Lemma keycloakHandler_nil_token_panics (client : GoCloak)
    (config : KC.KeycloakConfig) (extractor : tokenExtractor)
    (next : HandlerFunc) (c : Context) (auth : string) :
  call_Skipper (KC.Skipper config) c = Ok false →
  extractor (run_hook (KC.BeforeFunc config) c) = (auth, None) →
  keycloakDecode client config auth = (None, None) →
  panics (keycloakHandler client config extractor next c).
Proof.
  intros Hskip Hex Hdec. unfold keycloakHandler. rewrite Hskip. simpl.
  by rewrite Hex, Hdec.
Qed.

(** C9 (the code departs from it): a config without custom claims gets the
    default's empty [MapClaims] at construction, after which the type test
    of line 163 always holds.  The gate therefore calls the custom-claims
    decode for every config, with the configured claims or with the empty
    [MapClaims]; a client whose default decode would accept the token and
    whose custom-claims decode refuses it sees the request refused. *)
Theorem default_decode_is_never_used :
  serve (mw ← KeycloakWithConfig (fun _ => Fixtures.splitProvider)
                (Fixtures.authConfig "user");
         Ok (mw Fixtures.finalHandler)) Fixtures.goodRequest
  = Ok (Fixtures.goodRequest,
        Some (HTTPError 401 "invalid or expired token"
                (Some (ClientError "custom claims decode refused"))))
  ∧ (∀ config : KC.KeycloakConfig,
       match keycloakDefaults config with
       | Ok config' =>
           ∀ (client : GoCloak) (auth : string),
             keycloakDecode client config' auth
             = DecodeAccessTokenCustomClaims client auth (KC.KeycloakRealm config')
                 (default (jwt.MapClaims ∅) (KC.Claims config))
       | Panic _ => True
       end).
Proof.
  split; [reflexivity|].
  intros config. destruct (keycloakDefaults config) as [config'|] eqn:Hd; [|done].
  intros client auth.
  destruct (keycloakDefaults_fields config config' Hd)
    as (_ & _ & Hnone & Hsome & _).
  unfold keycloakDecode.
  destruct (KC.Claims config) as [claims|]; simpl.
  - by rewrite (Hsome claims eq_refl).
  - by rewrite (Hnone eq_refl).
Qed.

(** ** The lookup string *)

Lemma Split_nonempty (s : string) (sep : ascii) :
  ∃ p ps, strings.Split s sep = p :: ps.
Proof.
  induction s as [|a s IH]; simpl; [by eauto|].
  destruct (Ascii.eqb a sep); [by eauto|].
  destruct IH as (p & ps & ->). eauto.
Qed.

Lemma Split_source (source tail : string) (sep : ascii) :
  occurs sep source = false →
  strings.Split (source +:+ String sep tail) sep = source :: strings.Split tail sep.
Proof.
  induction source as [|a source IH]; intros Hocc.
  - simpl. by rewrite Ascii.eqb_refl.
  - simpl in Hocc. apply orb_false_elim in Hocc as [Ha Hocc].
    change (String a source +:+ String sep tail)
      with (String a (source +:+ String sep tail)).
    simpl. rewrite Ascii.eqb_sym, Ha. by rewrite (IH Hocc).
Qed.

Lemma Split_no_sep (s : string) (sep : ascii) :
  occurs sep s = false → strings.Split s sep = [s].
Proof.
  induction s as [|a s IH]; intros Hocc; [done|].
  simpl in Hocc. apply orb_false_elim in Hocc as [Ha Hocc].
  simpl. rewrite Ascii.eqb_sym, Ha. by rewrite (IH Hocc).
Qed.

(** A lookup string without a colon has no [parts[1]]: construction panics. *)
Lemma keycloakExtractor_without_colon (config : KC.KeycloakConfig) :
  occurs ":" (KC.TokenLookup config) = false →
  keycloakExtractor config = Panic "runtime error: index out of range".
Proof.
  intros Hocc. unfold keycloakExtractor.
  by rewrite (Split_no_sep _ _ Hocc).
Qed.

(** C10: for a lookup string "source:name..." whose source is none of
    query, param and cookie, construction succeeds (given the identity
    provider URL) and the gate extracts with the header extractor for the
    name part, that is the text between the first and the second colon. *)
Theorem unknown_source_uses_header (NewClient : string → GoCloak)
    (config : KC.KeycloakConfig) (source tail : string) :
  KC.KeycloakURL config ≠ "" →
  KC.TokenLookup config = source +:+ String ":" tail →
  occurs ":" source = false →
  source ≠ "query" → source ≠ "param" → source ≠ "cookie" →
  ∃ (config' : KC.KeycloakConfig) (name : string) (rest : list string),
    keycloakDefaults config = Ok config'
    ∧ strings.Split tail ":" = name :: rest
    ∧ KeycloakWithConfig NewClient config
      = Ok (keycloakHandler (NewClient (KC.KeycloakURL config)) config'
              (tokenFromHeader name (KC.AuthScheme config'))).
Proof.
  intros Hurl Hlookup Hocc Hq Hp Hc.
  destruct (keycloakDefaults_ok config Hurl) as [config' Hd].
  destruct (Split_nonempty tail ":") as (name & rest & Htail).
  exists config', name, rest. split; [done|]. split; [done|].
  destruct (keycloakDefaults_fields config config' Hd)
    as (_ & _ & _ & _ & _ & _ & _ & _ & Hu & _ & _ & Hl & _).
  rewrite <- Hu. apply KeycloakWithConfig_handler; [done|].
  unfold keycloakExtractor. rewrite Hl, Hlookup.
  assert (String.eqb (source +:+ String ":" tail) "" = false) as ->.
  { apply String.eqb_neq. by destruct source. }
  rewrite (Split_source source tail ":" Hocc), Htail. simpl.
  apply String.eqb_neq in Hq, Hp, Hc. by rewrite Hq, Hp, Hc.
Qed.

(** A misspelled source, "haeder:X-Token": the gate reads the header
    X-Token. *)
Lemma unknown_source_uses_header_witness :
  KeycloakWithConfig (fun _ => Fixtures.provider) Fixtures.misspelledLookup
  = Ok (keycloakHandler Fixtures.provider
          (KC.set_Skipper (KC.set_Claims Fixtures.misspelledLookup
                             (Some (jwt.MapClaims ∅))) (Some DefaultSkipper))
          (tokenFromHeader "X-Token" "Bearer")).
Proof.
  destruct (unknown_source_uses_header (fun _ => Fixtures.provider)
              Fixtures.misspelledLookup "haeder" "X-Token"
              ltac:(discriminate) eq_refl eq_refl
              ltac:(discriminate) ltac:(discriminate) ltac:(discriminate))
    as (config' & name & rest & Hd & Hsplit & Hrun).
  injection Hd as <-. injection Hsplit as <- <-. exact Hrun.
Defined.

(** * Further properties of the two files *)

(** ** The four extractors *)

(** X1: an extractor that reports an error reports [ErrTokenMissing] and an
    empty token, whichever of the four it is; the header, query and param
    extractors never return an empty token without an error. *)
Theorem extractor_outcomes (name scheme : string) (c : Context) (tok : string) :
  (∀ e : error,
      tokenFromHeader name scheme c = (tok, Some e)
      ∨ tokenFromQuery name c = (tok, Some e)
      ∨ tokenFromParam name c = (tok, Some e)
      ∨ tokenFromCookie name c = (tok, Some e) →
      tok = "" ∧ e = ErrTokenMissing)
  ∧ (tokenFromHeader name scheme c = (tok, None)
     ∨ tokenFromQuery name c = (tok, None)
     ∨ tokenFromParam name c = (tok, None) →
     tok ≠ "").
Proof.
  split.
  - intros e [H|[H|[H|H]]].
    + destruct (tokenFromHeader_cases name scheme c) as [(_ & _ & Heq)|[_ Heq]];
        rewrite Heq in H; [done|]. by injection H as <- <-.
    + unfold tokenFromQuery in H. destruct (String.eqb _ _); [|done].
      by injection H as <- <-.
    + unfold tokenFromParam in H. destruct (String.eqb _ _); [|done].
      by injection H as <- <-.
    + unfold tokenFromCookie in H. destruct (Cookie c name); [done|].
      by injection H as <- <-.
  - intros [H|[H|H]].
    + destruct (tokenFromHeader_cases name scheme c) as [(Hlen & _ & Heq)|[_ Heq]];
        rewrite Heq in H; [|done].
      injection H as <-.
      by destruct (slice_decompose (HeaderGet c name) (len scheme)
                     (len_nonneg _) Hlen) as (_ & _ & _ & Hne).
    + unfold tokenFromQuery in H. destruct (String.eqb _ _) eqn:Heq; [done|].
      apply String.eqb_neq in Heq. by injection H as <-.
    + unfold tokenFromParam in H. destruct (String.eqb _ _) eqn:Heq; [done|].
      apply String.eqb_neq in Heq. by injection H as <-.
Qed.

Lemma extractor_outcomes_witness :
  "" = "" ∧ ErrTokenMissing = ErrTokenMissing.
Proof.
  apply (proj1 (extractor_outcomes "access_token" "Bearer" Fixtures.emptyContext "")
           ErrTokenMissing).
  right. left. reflexivity.
Defined.

(** X2: the cookie extractor hands on the value of any cookie that is
    present, the empty value included.  With the cookie lookup a request
    whose cookie is empty is therefore decoded like any other and, when the
    client refuses it, answered with status 401 by default; only a request
    without the cookie gets [ErrTokenMissing]. *)
Theorem empty_cookie_reaches_decoder (client : GoCloak) (config : KC.KeycloakConfig)
    (name : string) (next : HandlerFunc) (c : Context) :
  call_Skipper (KC.Skipper config) c = Ok false →
  KC.ErrorHandler config = None →
  KC.ErrorHandlerWithContext config = None →
  (∀ (value : string) (token : option jwt.Token) (err : option error),
      Cookie (run_hook (KC.BeforeFunc config) c) name = Some value →
      keycloakDecode client config value = (token, err) →
      validationFailed token err →
      keycloakHandler client config (tokenFromCookie name) next c
      = Ok (run_hook (KC.BeforeFunc config) c,
            Some (HTTPError http.StatusUnauthorized "invalid or expired token" err)))
  ∧ (Cookie (run_hook (KC.BeforeFunc config) c) name = None →
     keycloakHandler client config (tokenFromCookie name) next c
     = Ok (run_hook (KC.BeforeFunc config) c, Some ErrTokenMissing)).
Proof.
  intros Hskip Hh1 Hh2. split.
  - intros value token err Hcookie Hdec Hbad.
    unfold keycloakHandler, tokenFromCookie. rewrite Hskip. simpl.
    rewrite Hcookie, Hdec.
    assert (tokenAccepted token err = Ok false) as ->.
    { destruct Hbad as [Hne|(t & -> & Hv)].
      - by destruct err.
      - destruct err; simpl; [done|by rewrite Hv]. }
    simpl. unfold keycloakFail. by rewrite Hh1, Hh2.
  - intros Hcookie. unfold keycloakHandler, tokenFromCookie. rewrite Hskip. simpl.
    rewrite Hcookie. unfold keycloakFail. by rewrite Hh1, Hh2.
Qed.

Lemma empty_cookie_reaches_decoder_witness :
  keycloakHandler Fixtures.provider Fixtures.cookieReady (tokenFromCookie "token")
    Fixtures.finalHandler (Fixtures.withCookie "token" "" Fixtures.emptyContext)
  = Ok (Fixtures.withCookie "token" "" Fixtures.emptyContext,
        Some (HTTPError 401 "invalid or expired token"
                (Some (ClientError "token is not valid")))).
Proof.
  refine (proj1 (empty_cookie_reaches_decoder Fixtures.provider Fixtures.cookieReady
                   "token" Fixtures.finalHandler
                   (Fixtures.withCookie "token" "" Fixtures.emptyContext)
                   eq_refl eq_refl eq_refl)
            "" None (Some (ClientError "token is not valid")) eq_refl eq_refl _).
  left. discriminate.
Defined.

(** ** Construction *)

Lemma occurs_split (sep : ascii) (s : string) :
  occurs sep s = true →
  ∃ source tail, s = source +:+ String sep tail ∧ occurs sep source = false.
Proof.
  induction s as [|a s IH]; [done|]. simpl.
  destruct (Ascii.eqb sep a) eqn:Ha; simpl.
  - intros _. apply Ascii.eqb_eq in Ha as <-. by exists "", s.
  - intros (source & tail & -> & Hsrc)%IH.
    exists (String a source), tail. split; [done|]. simpl. by rewrite Ha.
Qed.

(** With at least two pieces the extractor is chosen by the first piece and
    named by the second. *)
Lemma keycloakExtractor_select (config : KC.KeycloakConfig)
    (source name : string) (rest : list string) :
  strings.Split (KC.TokenLookup config) ":" = source :: name :: rest →
  keycloakExtractor config
  = Ok (if String.eqb source "query" then tokenFromQuery name
        else if String.eqb source "param" then tokenFromParam name
        else if String.eqb source "cookie" then tokenFromCookie name
        else tokenFromHeader name (KC.AuthScheme config)).
Proof.
  intros Hsplit. unfold keycloakExtractor. rewrite Hsplit. simpl.
  by destruct (String.eqb source "query"), (String.eqb source "param"),
    (String.eqb source "cookie").
Qed.

Lemma Split_with_sep (s : string) (sep : ascii) :
  occurs sep s = true →
  ∃ source name rest, strings.Split s sep = source :: name :: rest.
Proof.
  intros (source & tail & -> & Hsrc)%occurs_split.
  destruct (Split_nonempty tail sep) as (name & rest & Htail).
  exists source, name, rest. by rewrite (Split_source _ _ _ Hsrc), Htail.
Qed.

(** X3: construction of the auth middleware fails in exactly two ways: with
    an empty identity-provider URL, and with a non-empty lookup string that
    has no colon (reading [parts[1]] is out of range).  In every other case
    it returns a middleware. *)
Theorem KeycloakWithConfig_construction (NewClient : string → GoCloak)
    (config : KC.KeycloakConfig) :
  (KC.KeycloakURL config = "" →
   KeycloakWithConfig NewClient config
   = Panic "echo: keycloak middleware requires keycloak url")
  ∧ (KC.KeycloakURL config ≠ "" → KC.TokenLookup config ≠ "" →
     occurs ":" (KC.TokenLookup config) = false →
     KeycloakWithConfig NewClient config = Panic "runtime error: index out of range")
  ∧ (KC.KeycloakURL config ≠ "" →
     KC.TokenLookup config = "" ∨ occurs ":" (KC.TokenLookup config) = true →
     ∃ mw, KeycloakWithConfig NewClient config = Ok mw).
Proof.
  split; [|split].
  - intros Hurl. unfold KeycloakWithConfig, keycloakDefaults.
    destruct (KC.Skipper config); simpl; by rewrite Hurl.
  - intros Hurl Hne Hocc.
    destruct (keycloakDefaults_ok config Hurl) as [config' Hd].
    destruct (keycloakDefaults_fields config config' Hd)
      as (_ & _ & _ & _ & _ & _ & _ & _ & _ & _ & _ & Hl & _).
    apply String.eqb_neq in Hne. rewrite Hne in Hl.
    unfold KeycloakWithConfig. rewrite Hd. simpl.
    rewrite keycloakExtractor_without_colon; [done|]. by rewrite Hl.
  - intros Hurl Hlookup.
    destruct (keycloakDefaults_ok config Hurl) as [config' Hd].
    destruct (keycloakDefaults_fields config config' Hd)
      as (_ & _ & _ & _ & _ & _ & _ & _ & _ & _ & _ & Hl & _).
    assert (occurs ":" (KC.TokenLookup config') = true) as Hocc.
    { rewrite Hl. destruct Hlookup as [->|Hocc]; [done|].
      by destruct (String.eqb (KC.TokenLookup config) ""). }
    destruct (Split_with_sep _ _ Hocc) as (source & name & rest & Hsplit).
    eexists. apply (KeycloakWithConfig_handler NewClient config config'); [done|].
    by apply (keycloakExtractor_select config' source name rest).
Qed.

Lemma KeycloakWithConfig_construction_witness :
  ∃ mw, KeycloakWithConfig (fun _ => Fixtures.provider) (Fixtures.authConfig "user")
        = Ok mw.
Proof.
  apply (proj2 (proj2 (KeycloakWithConfig_construction (fun _ => Fixtures.provider)
                         (Fixtures.authConfig "user")))).
  - discriminate.
  - by left.
Defined.

(** X4: a lookup string that names query, param or cookie selects that
    extractor, and header the header extractor; the name is the text
    between the first and the second colon, and the auth scheme plays no
    part for the first three. *)
Theorem known_sources_select_extractors (NewClient : string → GoCloak)
    (config : KC.KeycloakConfig) (tail : string) :
  KC.KeycloakURL config ≠ "" →
  ∃ (config' : KC.KeycloakConfig) (name : string) (rest : list string),
    keycloakDefaults config = Ok config'
    ∧ strings.Split tail ":" = name :: rest
    ∧ (KC.TokenLookup config = "query:" +:+ tail →
       KeycloakWithConfig NewClient config
       = Ok (keycloakHandler (NewClient (KC.KeycloakURL config)) config'
               (tokenFromQuery name)))
    ∧ (KC.TokenLookup config = "param:" +:+ tail →
       KeycloakWithConfig NewClient config
       = Ok (keycloakHandler (NewClient (KC.KeycloakURL config)) config'
               (tokenFromParam name)))
    ∧ (KC.TokenLookup config = "cookie:" +:+ tail →
       KeycloakWithConfig NewClient config
       = Ok (keycloakHandler (NewClient (KC.KeycloakURL config)) config'
               (tokenFromCookie name)))
    ∧ (KC.TokenLookup config = "header:" +:+ tail →
       KeycloakWithConfig NewClient config
       = Ok (keycloakHandler (NewClient (KC.KeycloakURL config)) config'
               (tokenFromHeader name (KC.AuthScheme config')))).
Proof.
  intros Hurl.
  destruct (keycloakDefaults_ok config Hurl) as [config' Hd].
  destruct (Split_nonempty tail ":") as (name & rest & Htail).
  exists config', name, rest. split; [done|]. split; [done|].
  destruct (keycloakDefaults_fields config config' Hd)
    as (_ & _ & _ & _ & _ & _ & _ & _ & Hu & _ & _ & Hl & _).
  assert (∀ source : string,
            occurs ":" source = false →
            KC.TokenLookup config = source +:+ String ":" tail →
            KeycloakWithConfig NewClient config
            = Ok (keycloakHandler (NewClient (KC.KeycloakURL config)) config'
                    (if String.eqb source "query" then tokenFromQuery name
                     else if String.eqb source "param" then tokenFromParam name
                     else if String.eqb source "cookie" then tokenFromCookie name
                     else tokenFromHeader name (KC.AuthScheme config')))) as Hsel.
  { intros source Hocc Hlookup. rewrite <- Hu.
    apply KeycloakWithConfig_handler; [done|].
    apply (keycloakExtractor_select config' source name rest).
    rewrite Hl, Hlookup.
    assert (String.eqb (source +:+ String ":" tail) "" = false) as ->.
    { apply String.eqb_neq. by destruct source. }
    by rewrite (Split_source source tail ":" Hocc), Htail. }
  repeat split; intros Hlookup.
  - apply (Hsel "query" eq_refl Hlookup).
  - apply (Hsel "param" eq_refl Hlookup).
  - apply (Hsel "cookie" eq_refl Hlookup).
  - apply (Hsel "header" eq_refl Hlookup).
Qed.

Lemma known_sources_select_extractors_witness :
  KeycloakWithConfig (fun _ => Fixtures.provider)
    (KC.set_Skipper Fixtures.cookieReady None)
  = Ok (keycloakHandler Fixtures.provider Fixtures.cookieReady (tokenFromCookie "token")).
Proof.
  destruct (known_sources_select_extractors (fun _ => Fixtures.provider)
              (KC.set_Skipper Fixtures.cookieReady None) "token"
              ltac:(discriminate))
    as (config' & name & rest & Hd & Hsplit & _ & _ & Hcookie & _).
  injection Hd as <-. injection Hsplit as <- <-. exact (Hcookie eq_refl).
Defined.

(** X5: the two short constructors.  [Keycloak] panics exactly on an empty
    URL and otherwise guards with the default config: the token is read from
    the Authorization header with the scheme Bearer.  [KeycloakRoles] panics
    exactly on an empty role list and otherwise guards with the default
    roles config. *)
Theorem default_constructors (NewClient : string → GoCloak)
    (Error : error → string) (url realm : string) (roles : list string) :
  (url = "" →
   Keycloak NewClient url realm = Panic "echo: keycloak middleware requires keycloak url")
  ∧ (url ≠ "" →
     Keycloak NewClient url realm
     = Ok (keycloakHandler (NewClient url)
             (KC.set_KeycloakRealm (KC.set_KeycloakURL DefaultKeycloakConfig url) realm)
             (tokenFromHeader "Authorization" "Bearer")))
  ∧ (roles = [] →
     KeycloakRoles Error roles
     = Panic "echo: keycloak roles middleware requires keycloak roles")
  ∧ (roles ≠ [] →
     KeycloakRoles Error roles
     = Ok (rolesHandler Error (KRC.set_KeycloakRoles DefaultKeycloakRolesConfig roles))).
Proof.
  split; [|split; [|split]].
  - by intros ->.
  - intros Hurl. apply String.eqb_neq in Hurl.
    unfold Keycloak, KeycloakWithConfig, keycloakDefaults. simpl. by rewrite Hurl.
  - by intros ->.
  - intros Hroles. by destruct roles.
Qed.

Lemma default_constructors_witness :
  KeycloakRoles Fixtures.message ["admin"]
  = Ok (rolesHandler Fixtures.message
          (KRC.set_KeycloakRoles DefaultKeycloakRolesConfig ["admin"])).
Proof.
  apply (proj2 (proj2 (proj2 (default_constructors (fun _ => Fixtures.provider)
           Fixtures.message "http://localhost:8080" "test" ["admin"])))).
  discriminate.
Defined.

(** X6: construction of the roles middleware fails exactly on an empty role
    list.  Otherwise the handler runs with the config as given, a nil
    skipper replaced by the default one; the roles context key is taken as
    it is, an empty one included. *)
Theorem KeycloakRolesWithConfig_construction (Error : error → string)
    (config : KRC.KeycloakRolesConfig) :
  (KRC.KeycloakRoles config = [] →
   KeycloakRolesWithConfig Error config
   = Panic "echo: keycloak roles middleware requires keycloak roles")
  ∧ (KRC.KeycloakRoles config ≠ [] →
     ∃ config' : KRC.KeycloakRolesConfig,
       KeycloakRolesWithConfig Error config = Ok (rolesHandler Error config')
       ∧ KRC.Skipper config' = Some (default DefaultSkipper (KRC.Skipper config))
       ∧ KRC.BeforeFunc config' = KRC.BeforeFunc config
       ∧ KRC.SuccessHandler config' = KRC.SuccessHandler config
       ∧ KRC.ErrorHandler config' = KRC.ErrorHandler config
       ∧ KRC.ErrorHandlerWithContext config' = KRC.ErrorHandlerWithContext config
       ∧ KRC.KeycloakRoles config' = KRC.KeycloakRoles config
       ∧ KRC.RolesContextKey config' = KRC.RolesContextKey config).
Proof.
  destruct config as [sk bf sh eh ehc roles tkey rkey]. simpl. split.
  - intros ->. unfold KeycloakRolesWithConfig, rolesDefaults. simpl.
    by destruct sk.
  - intros Hroles. unfold KeycloakRolesWithConfig, rolesDefaults. simpl.
    destruct roles as [|r roles]; [done|].
    destruct sk; simpl; destruct (String.eqb tkey ""); simpl;
      eexists; (split; [reflexivity|]); simpl; repeat split.
Qed.

Lemma KeycloakRolesWithConfig_construction_witness :
  ∃ config' : KRC.KeycloakRolesConfig,
    KeycloakRolesWithConfig Fixtures.message (Fixtures.rolesConfig "user")
    = Ok (rolesHandler Fixtures.message config')
    ∧ KRC.Skipper config' = Some DefaultSkipper
    ∧ KRC.RolesContextKey config' = "roles".
Proof.
  destruct (proj2 (KeycloakRolesWithConfig_construction Fixtures.message
                     (Fixtures.rolesConfig "user")) ltac:(discriminate))
    as (config' & Hrun & Hsk & _ & _ & _ & _ & _ & Hkey).
  exists config'. done.
Defined.

(** ** The role extractor *)

Lemma appendRoles_inv (rolesRaw : list JSON) (acc roles : list string) :
  appendRoles rolesRaw acc = Ok roles →
  ∃ names, rolesRaw = JString <$> names ∧ roles = (acc ++ names)%list.
Proof.
  revert acc. induction rolesRaw as [|r rest IH]; intros acc Hrun; simpl in Hrun.
  - injection Hrun as <-. exists []. by rewrite app_nil_r.
  - destruct r as [| | |s| |]; try discriminate Hrun.
    destruct (IH _ Hrun) as (names & -> & ->).
    exists (s :: names). by rewrite <- app_assoc.
Qed.

Lemma asMapClaims_Some (claims : option jwt.Claims) (m : gmap string JSON) :
  asMapClaims claims = Some m → claims = Some (jwt.MapClaims m).
Proof. destruct claims as [[?|? ?]|]; simpl; congruence. Qed.

Lemma asObject_Some (v : option JSON) (m : gmap string JSON) :
  asObject v = Some m → v = Some (JObject m).
Proof. destruct v as [[]|]; simpl; congruence. Qed.

Lemma asArray_Some (v : option JSON) (l : list JSON) :
  asArray v = Some l → v = Some (JArray l).
Proof. destruct v as [[]|]; simpl; congruence. Qed.

(** X7: the role extractor reports no error only for a token whose claims
    are a [MapClaims] with a [realm_access] mapping whose [roles] entry is a
    list of strings, and then the role list it returns is that list, in its
    order, and contains every required role. *)
Theorem resolveRoles_sound (required : list string) (token : jwt.Token)
    (roles : list string) :
  resolveRoles required token = Ok (None, roles) →
  ∃ claims realmAcces : gmap string JSON,
    jwt.TokenClaims token = Some (jwt.MapClaims claims)
    ∧ claims !! "realm_access" = Some (JObject realmAcces)
    ∧ realmAcces !! "roles" = Some (JArray (JString <$> roles))
    ∧ ∀ r, r ∈ required → r ∈ roles.
Proof.
  unfold resolveRoles. intros Hrun.
  destruct (asMapClaims (jwt.TokenClaims token)) as [claims|] eqn:Hc; [|done].
  destruct (asObject (claims !! "realm_access")) as [realmAcces|] eqn:Hr; [|done].
  destruct (asArray (realmAcces !! "roles")) as [rolesRaw|] eqn:Ha; [|done].
  destruct (appendRoles rolesRaw []) as [names|] eqn:Happ; [|done].
  simpl in Hrun. injection Hrun as Hcheck <-.
  destruct (appendRoles_inv _ _ _ Happ) as (names' & -> & ->). simpl.
  exists claims, realmAcces.
  split; [by apply asMapClaims_Some|]. split; [by apply asObject_Some|].
  split; [by apply asArray_Some|]. by apply checkRoles_None.
Qed.

Lemma resolveRoles_sound_witness :
  ∃ claims realmAcces : gmap string JSON,
    jwt.TokenClaims (Fixtures.tokenWithRoles true [JString "user"; JString "admin"])
    = Some (jwt.MapClaims claims)
    ∧ claims !! "realm_access" = Some (JObject realmAcces)
    ∧ realmAcces !! "roles" = Some (JArray (JString <$> ["user"; "admin"]))
    ∧ ∀ r, r ∈ ["admin"] → r ∈ ["user"; "admin"].
Proof.
  apply (resolveRoles_sound ["admin"]
           (Fixtures.tokenWithRoles true [JString "user"; JString "admin"])
           ["user"; "admin"]).
  reflexivity.
Defined.

(** X8: every error the role extractor reports is one of four, each with
    its cause: [ErrClaimsMissing] when the claims are not a [MapClaims],
    [ErrRealmAccessMissing] when they have no [realm_access] mapping,
    [ErrRolesMissing] when that mapping has no [roles] list, and
    [ErrRolesInvalid] when the list, all strings, lacks a required role.
    The first three carry status 500, the last 403. *)
Theorem resolveRoles_errors (required : list string) (token : jwt.Token)
    (e : error) (roles : list string) :
  resolveRoles required token = Ok (Some e, roles) →
  (e = ErrClaimsMissing ∧ asMapClaims (jwt.TokenClaims token) = None
   ∧ Code e = Some 500 ∧ roles = [])
  ∨ (∃ claims, asMapClaims (jwt.TokenClaims token) = Some claims
       ∧ ((e = ErrRealmAccessMissing ∧ asObject (claims !! "realm_access") = None
           ∧ Code e = Some 500 ∧ roles = [])
          ∨ ∃ realmAcces, asObject (claims !! "realm_access") = Some realmAcces
              ∧ ((e = ErrRolesMissing ∧ asArray (realmAcces !! "roles") = None
                  ∧ Code e = Some 500 ∧ roles = [])
                 ∨ (e = ErrRolesInvalid
                    ∧ asArray (realmAcces !! "roles") = Some (JString <$> roles)
                    ∧ Code e = Some 403
                    ∧ ∃ r, r ∈ required ∧ r ∉ roles)))).
Proof.
  unfold resolveRoles. intros Hrun.
  destruct (asMapClaims (jwt.TokenClaims token)) as [claims|] eqn:Hc.
  2: { injection Hrun as <- <-. by left. }
  right. exists claims. split; [done|].
  destruct (asObject (claims !! "realm_access")) as [realmAcces|] eqn:Hr.
  2: { injection Hrun as <- <-. by left. }
  right. exists realmAcces. split; [done|].
  destruct (asArray (realmAcces !! "roles")) as [rolesRaw|] eqn:Ha.
  2: { injection Hrun as <- <-. by left. }
  right.
  destruct (appendRoles rolesRaw []) as [names|] eqn:Happ; [|done].
  simpl in Hrun. injection Hrun as Hcheck <-.
  destruct (appendRoles_inv _ _ _ Happ) as (names' & -> & ->). simpl in *.
  destruct (checkRoles_outcomes required names') as [Hnone|Hinv]; [congruence|].
  assert (e = ErrRolesInvalid) as -> by congruence.
  repeat split.
  destruct (decide (Forall (λ r, r ∈ names') required)) as [Hall|Hnot].
  - exfalso. rewrite Forall_forall in Hall.
    apply checkRoles_None in Hall. congruence.
  - apply not_Forall_Exists in Hnot; [|solve_decision].
    apply Exists_exists in Hnot as (r & Hr1 & Hr2). eauto.
Qed.

Lemma resolveRoles_errors_witness :
  ∃ r, r ∈ ["admin"; "editor"] ∧ r ∉ ["editor"].
Proof.
  destruct (resolveRoles_errors ["admin"; "editor"]
              (Fixtures.tokenWithRoles true [JString "editor"])
              ErrRolesInvalid ["editor"] eq_refl)
    as [(Hbad & _)|(claims & _ & [(Hbad & _)|(realmAcces & _ & [(Hbad & _)|H])])];
    try discriminate Hbad.
  by destruct H as (_ & _ & _ & Hr).
Defined.

(** ** The role gate on a request *)

(** X9: when the slot "user" holds a token with its [Valid] flag set and
    the role extractor reports no error, the role gate writes the role list
    under the configured roles key, then runs the success hook, then the
    next handler; no other slot is written. *)
Theorem rolesHandler_success (Error : error → string)
    (config : KRC.KeycloakRolesConfig) (next : HandlerFunc) (c : Context)
    (token : jwt.Token) (roles : list string) :
  call_Skipper (KRC.Skipper config) c = Ok false →
  c_Get (run_hook (KRC.BeforeFunc config) c) "user" = Some (VToken (Some token)) →
  resolveRoles (KRC.KeycloakRoles config) token = Ok (None, roles) →
  jwt.Valid token = true →
  rolesHandler Error config next c
  = next (run_hook (KRC.SuccessHandler config)
            (c_Set (run_hook (KRC.BeforeFunc config) c) (KRC.RolesContextKey config)
               (VStrings roles)))
  ∧ c_Get (c_Set (run_hook (KRC.BeforeFunc config) c) (KRC.RolesContextKey config)
             (VStrings roles)) (KRC.RolesContextKey config)
    = Some (VStrings roles)
  ∧ ∀ key, key ≠ KRC.RolesContextKey config →
           c_Get (c_Set (run_hook (KRC.BeforeFunc config) c)
                    (KRC.RolesContextKey config) (VStrings roles)) key
           = c_Get (run_hook (KRC.BeforeFunc config) c) key.
Proof.
  intros Hskip Hslot Hres Hvalid. split; [|split].
  - unfold rolesHandler. rewrite Hskip. simpl. rewrite Hslot. simpl.
    rewrite Hres. simpl. by rewrite Hvalid.
  - unfold c_Get, c_Set. simpl. apply lookup_insert_eq.
  - intros key Hkey. unfold c_Get, c_Set. simpl. by apply lookup_insert_ne.
Qed.

(** Claims with the roles user and admin, required role admin: the next
    handler sees both names under "roles". *)
Lemma rolesHandler_success_witness :
  rolesHandler Fixtures.message (Fixtures.rolesReady ["admin"]) Fixtures.finalHandler
    (Fixtures.withToken (Fixtures.tokenWithRoles true [JString "user"; JString "admin"])
       Fixtures.emptyContext)
  = Ok (c_Set (Fixtures.withToken
                 (Fixtures.tokenWithRoles true [JString "user"; JString "admin"])
                 Fixtures.emptyContext) "roles" (VStrings ["user"; "admin"]),
        None).
Proof.
  exact (proj1 (rolesHandler_success Fixtures.message (Fixtures.rolesReady ["admin"])
                  Fixtures.finalHandler
                  (Fixtures.withToken
                     (Fixtures.tokenWithRoles true [JString "user"; JString "admin"])
                     Fixtures.emptyContext)
                  (Fixtures.tokenWithRoles true [JString "user"; JString "admin"])
                  ["user"; "admin"] eq_refl eq_refl eq_refl eq_refl)).
Defined.

(** X10: when the role extractor reports an error, or reports none for a
    token whose [Valid] flag is not set, the role gate does not call the
    next handler and writes nothing: the context-free error hook decides the
    answer, else the context-aware one, else the answer is status 403 with
    the text of [ErrRolesInvalid] around the extractor's error (around nil
    in the case of the flag). *)
Theorem rolesHandler_failure_dispatch (Error : error → string)
    (config : KRC.KeycloakRolesConfig) (next : HandlerFunc) (c : Context)
    (token : jwt.Token) (err : option error) (roles : list string) :
  call_Skipper (KRC.Skipper config) c = Ok false →
  c_Get (run_hook (KRC.BeforeFunc config) c) "user" = Some (VToken (Some token)) →
  resolveRoles (KRC.KeycloakRoles config) token = Ok (err, roles) →
  err ≠ None ∨ jwt.Valid token = false →
  rolesHandler Error config next c
  = Ok match KRC.ErrorHandler config with
       | Some handler => (run_hook (KRC.BeforeFunc config) c, handler err)
       | None =>
           match KRC.ErrorHandlerWithContext config with
           | Some handler => handler err (run_hook (KRC.BeforeFunc config) c)
           | None =>
               (run_hook (KRC.BeforeFunc config) c,
                Some (HTTPError http.StatusForbidden (Error ErrRolesInvalid) err))
           end
       end.
Proof.
  intros Hskip Hslot Hres Hbad.
  unfold rolesHandler. rewrite Hskip. simpl. rewrite Hslot. simpl.
  rewrite Hres. simpl.
  assert ((match err with None => true | Some _ => false end) && jwt.Valid token
          = false) as ->.
  { destruct Hbad as [Hne| ->]; [by destruct err|apply andb_false_r]. }
  reflexivity.
Qed.

(** A token whose flag is not set, all roles present: 403 around nil. *)
Lemma rolesHandler_failure_dispatch_witness :
  rolesHandler Fixtures.message (Fixtures.rolesReady ["admin"]) Fixtures.finalHandler
    (Fixtures.withToken (Fixtures.tokenWithRoles false [JString "admin"])
       Fixtures.emptyContext)
  = Ok (Fixtures.withToken (Fixtures.tokenWithRoles false [JString "admin"])
          Fixtures.emptyContext,
        Some (HTTPError 403 "invalid roles" None)).
Proof.
  apply (rolesHandler_failure_dispatch Fixtures.message (Fixtures.rolesReady ["admin"])
           Fixtures.finalHandler
           (Fixtures.withToken (Fixtures.tokenWithRoles false [JString "admin"])
              Fixtures.emptyContext)
           (Fixtures.tokenWithRoles false [JString "admin"]) None ["admin"]
           eq_refl eq_refl eq_refl).
  by right.
Defined.



(** ** Skipped requests, and requests the auth gate answers *)

Lemma keycloakDefaults_Skipper (config config' : KC.KeycloakConfig) (skip : Skipper_t) :
  keycloakDefaults config = Ok config' → KC.Skipper config = Some skip →
  KC.Skipper config' = Some skip.
Proof.
  destruct config as [sk bf sh eh ehc url realm key claims lookup scheme].
  unfold keycloakDefaults. simpl. intros Hd ->. simpl in Hd.
  destruct (String.eqb url ""); simpl in Hd; [discriminate Hd|].
  destruct (String.eqb key ""); simpl in Hd; destruct claims; simpl in Hd;
    destruct (String.eqb lookup ""); simpl in Hd;
    destruct (String.eqb scheme ""); simpl in Hd;
    by injection Hd as <-.
Qed.

(** X12: a request the configured skipper matches goes straight to the next
    handler, through either middleware: nothing is extracted, decoded, read
    from or written to the context, and no hook runs. *)
Theorem skipped_requests_bypass (NewClient : string → GoCloak)
    (Error : error → string) (mw : MiddlewareFunc) (skip : Skipper_t)
    (next : HandlerFunc) (c : Context) :
  skip c = true →
  (∀ config : KC.KeycloakConfig,
      KC.Skipper config = Some skip →
      KeycloakWithConfig NewClient config = Ok mw →
      mw next c = next c)
  ∧ (∀ config : KRC.KeycloakRolesConfig,
      KRC.Skipper config = Some skip →
      KeycloakRolesWithConfig Error config = Ok mw →
      mw next c = next c).
Proof.
  intros Hskip. split.
  - intros config Hsk Hrun. unfold KeycloakWithConfig in Hrun.
    destruct (keycloakDefaults config) as [config'|] eqn:Hd; [|done].
    simpl in Hrun.
    destruct (keycloakExtractor config') as [extractor|]; [|done].
    simpl in Hrun. injection Hrun as <-.
    unfold keycloakHandler.
    rewrite (keycloakDefaults_Skipper config config' skip Hd Hsk). simpl.
    by rewrite Hskip.
  - intros config Hsk Hrun.
    destruct config as [sk bf sh eh ehc roles tkey rkey]. simpl in Hsk. subst sk.
    unfold KeycloakRolesWithConfig, rolesDefaults in Hrun. simpl in Hrun.
    destruct roles as [|r roles]; [done|]. simpl in Hrun.
    destruct (String.eqb tkey ""); simpl in Hrun; injection Hrun as <-;
      unfold rolesHandler; simpl; by rewrite Hskip.
Qed.

Lemma skipped_requests_bypass_witness :
  rolesHandler Fixtures.message
    (KRC.set_Skipper (Fixtures.rolesConfig "user") (Some (fun _ => true)))
    Fixtures.finalHandler Fixtures.emptyContext
  = Ok (Fixtures.emptyContext, None).
Proof.
  apply (proj2 (skipped_requests_bypass (fun _ => Fixtures.provider) Fixtures.message
                  (rolesHandler Fixtures.message
                     (KRC.set_Skipper (Fixtures.rolesConfig "user") (Some (fun _ => true))))
                  (fun _ => true) Fixtures.finalHandler Fixtures.emptyContext eq_refl)
           (KRC.set_Skipper (Fixtures.rolesConfig "user") (Some (fun _ => true)))
           eq_refl eq_refl).
Defined.



(** ** Both gates with their default configs *)







